(** * HPOlibExperimentUtils.core.optimizer: the run coordinators

    A shallow embedding of [HPOlibExperimentUtils/core/optimizer.py]: the
    [Optimizer] base class and its two variants, [BOHBOptimizer] (the bandit
    engine of hpbandster, run under a wall-clock guard) and [SMACOptimizer]
    (the model-based engine of SMAC with an early-stopping intensifier).

    The coordinators are glue code around external collaborators (the
    benchmark adapter, the rendezvous name server, the worker, the two
    engines).  The embedding keeps the glue as it is written, statement by
    statement, in a state-and-exception monad over a [world] that holds the
    two settings mappings, the state of the engines and a log of every call
    made to a collaborator; the collaborators themselves are a record of
    behaviours ([collaborators]), so that every statement below holds for all
    of them and can be run against concrete fakes. *)

From Stdlib Require Import ZArith Lia.
From stdpp Require Import base option list gmap strings pretty.

Local Open Scope Z_scope.

(** ** Python values, exceptions and outcomes *)

(** The values found in the settings mappings and passed to the collaborators.
    Numbers are integers: fractional budgets are not represented. *)
Inductive value :=
| VNone
| VBool (b : bool)
| VInt (n : Z)
| VStr (s : string)
| VPath (p : string).

(** [str(v)] *)
Definition py_str (v : value) : string :=
  match v with
  | VNone => "None"
  | VBool true => "True"
  | VBool false => "False"
  | VInt n => pretty n
  | VStr s => s
  | VPath p => p
  end.

(** [Path(s)] *)
Definition Path (s : string) : value := VPath s.

(** [deepcopy]: values of the embedding are immutable, a copy is the value. *)
Definition deepcopy {A : Type} (x : A) : A := x.

Inductive exn :=
| TimeoutException
| ValueError (msg : string)
| KeyError (key : string)
| TypeError (msg : string)
| IndexError
| NotImplementedError
| EngineError (what : string).

Inductive outcome (A : Type) :=
| Ret (a : A)
| Raise (e : exn).
Arguments Ret {A} a.
Arguments Raise {A} e.

(** ** Data of the engines *)

Inductive ConfigurationSpace := ConfigurationSpace_obj (ident : nat).

Abbreviation Configuration := (gmap string value).

(** A configuration id of hpbandster: (iteration, bracket position, index). *)
Abbreviation config_id := (Z * Z * Z)%type.

(** [Datum] of hpbandster, restricted to what the coordinator touches: the
    time stamps, per budget, of the events submitted / started / finished. *)
Record Datum := mk_Datum {
  time_stamps : gmap Z (gmap string Z)
}.

Abbreviation iteration_data := (gmap config_id Datum).

(** An iteration object of the bandit engine; [data] is its attribute. *)
Record iteration := mk_iteration {
  data : iteration_data
}.

(** A [Result] object of the bandit engine: the data and the configuration it
    holds.  [master.run] returns one; the constructor [hpres.Result] is a
    collaborator ([hpres_Result] below). *)
Record Result := mk_Result {
  result_data : list iteration_data;
  HB_config : gmap string value
}.

(** The early-stopping strategies of SMAC ([self.intensifier] after
    construction). *)
Inductive intensifier_class := Hyperband | SuccessiveHalving.

(** Modelled from the spec: [OptimizerEnum] of [utils/runner_utils.py] is not
    among the sources; "an enumerated choice among supported early-stopping
    strategies ...; invalid choices are a configuration error".  The two
    members the constructor tests for are named, every other object that can
    be passed is [OTHER]. *)
Inductive OptimizerEnum :=
| HYPERBAND
| SUCCESSIVE_HALVING
| OTHER (name : string).

(** The scenario description handed to [Scenario(...)]. *)
Record scenario_dict := mk_scenario_dict {
  sc_run_obj : string;
  sc_wallclock_limit : value;
  sc_cs : ConfigurationSpace;
  sc_deterministic : string;
  sc_limit_resources : bool;
  sc_runcount_limit : Z;
  sc_cutoff : value;
  sc_memory_limit : value;
  sc_output_dir : string
}.

(** Keyword arguments of [BOHB(...)]. *)
Record BOHB_kwargs := mk_BOHB_kwargs {
  bk_configspace : ConfigurationSpace;
  bk_run_id : string;
  bk_host : string;
  bk_nameserver : string;
  bk_nameserver_port : Z;
  bk_eta : value;
  bk_min_budget : value;
  bk_max_budget : value
}.

(** Keyword arguments of [SMAC4HPO(...)]. *)
Record SMAC4HPO_kwargs := mk_SMAC4HPO_kwargs {
  sk_scenario : scenario_dict;
  sk_rng : value;
  sk_intensifier : intensifier_class;
  sk_initial_budget : value;
  sk_max_budget : value;
  sk_eta : value
}.

(** Messages given to [logger.info]; the holes of the f-strings are the
    arguments. *)
Inductive message :=
| WALLCLOCK_LIMIT_REACHED
| Inc_Config (inc_cfg : Configuration) (inc_value : Z)
| Finished_Optimization (seconds : Z) (incumbent : option Configuration).

(** Every call to a collaborator, with its arguments. *)
Inductive event :=
| EvGetConfigurationSpace
| EvObjectiveFunction (cfg : Configuration) (kwargs : gmap string value)
| EvJsonResultLogger (directory : string) (overwrite : bool)
| EvNameServer (run_id host working_directory : string)
| EvNsStart
| EvCustomWorker (settings : gmap string value) (nameserver : string)
    (nameserver_port : Z) (run_id : string)
| EvWorkerRun (background : bool)
| EvBOHB (kw : BOHB_kwargs)
| EvMasterRun (n_iterations : value)
| EvFixTimestamps (index : nat) (time_ref : Z)
| EvResult (HB_iteration_data : list iteration_data) (config : gmap string value)
| EvMasterShutdown (shutdown_workers : bool)
| EvNsShutdown
| EvScenario (sd : scenario_dict)
| EvRandomState (seed : value)
| EvSMAC4HPO (kw : SMAC4HPO_kwargs)
| EvSmacOptimize
| EvSolverIncumbent
| EvLoggerInfo (msg : message).

(** The calls that build a scenario, start an engine or a process, or claim
    a resource (a log file, a network endpoint, a random state). *)
Definition allocates (ev : event) : bool :=
  match ev with
  | EvJsonResultLogger _ _ | EvNameServer _ _ _ | EvNsStart
  | EvCustomWorker _ _ _ _ | EvWorkerRun _ | EvBOHB _ | EvMasterRun _
  | EvScenario _ | EvRandomState _ | EvSMAC4HPO _ | EvSmacOptimize => true
  | _ => false
  end.

Definition is_master_shutdown (ev : event) : bool :=
  match ev with EvMasterShutdown _ => true | _ => false end.

Definition is_ns_shutdown (ev : event) : bool :=
  match ev with EvNsShutdown => true | _ => false end.

(** How often the log has a call of some kind. *)
Definition count_calls (kind : event → bool) (log : list event) : nat :=
  length (filter (λ ev, kind ev = true) log).

(** The state of the engines that the coordinators read back:
    [master.iterations], [master.warmstart_iteration], [master.time_ref],
    [master.config] of the bandit engine; [smac.solver.incumbent] and
    [smac.output_dir] of the model-based engine. *)
Record engine_state := mk_engine {
  master_iterations : list iteration;
  master_warmstart_iteration : list iteration;
  master_time_ref : Z;
  master_config : gmap string value;
  smac_solver_incumbent : option Configuration;
  smac_output_dir : string
}.

(** ** The world and the monad *)

(** [optimizer_settings] and [benchmark_settings] are the two mappings the
    caller hands to the constructor; they are shared with the caller, so they
    live in the store.  [calls] is the log of collaborator calls, oldest
    first; [clock] is the wall clock, in seconds. *)
Record world := mk_world {
  optimizer_settings : gmap string value;
  benchmark_settings : gmap string value;
  engine : engine_state;
  calls : list event;
  clock : nat
}.

Definition M (A : Type) : Type := world → outcome A * world.

Definition ret {A} (a : A) : M A := λ w, (Ret a, w).

Definition raise {A} (e : exn) : M A := λ w, (Raise e, w).

Definition bind {A B} (m : M A) (k : A → M B) : M B :=
  λ w, match m w with
       | (Ret a, w') => k a w'
       | (Raise e, w') => (Raise e, w')
       end.

#[global] Instance M_ret : MRet M := @ret.
#[global] Instance M_bind : MBind M := λ A B k m, bind m k.

(** [try: body except TimeoutException: handler] *)
Definition try_except_TimeoutException {A} (body handler : M A) : M A :=
  λ w, match body w with
       | (Raise TimeoutException, w') => handler w'
       | r => r
       end.

(** [try: body finally: final], where [final] binds a variable that the code
    after the statement reads. *)
Definition try_finally {A B} (body : M A) (final : M B) : M (A * B) :=
  λ w, match body w with
       | (Ret a, w') =>
           match final w' with
           | (Ret b, w'') => (Ret (a, b), w'')
           | (Raise e, w'') => (Raise e, w'')
           end
       | (Raise e, w') =>
           match final w' with
           | (Ret _, w'') => (Raise e, w'')
           | (Raise e', w'') => (Raise e', w'')
           end
       end.

(** A pure helper that may raise. *)
Definition lift {A} (o : outcome A) : M A := λ w, (o, w).

(** What a collaborator does: it acts on the state of the engines. *)
Definition ext_op (A : Type) : Type := engine_state → outcome A * engine_state.

Definition set_engine (e : engine_state) (w : world) : world :=
  mk_world (optimizer_settings w) (benchmark_settings w) e (calls w) (clock w).

Definition log_call (ev : event) (w : world) : world :=
  mk_world (optimizer_settings w) (benchmark_settings w) (engine w)
    (calls w ++ [ev]) (clock w).

Definition advance_clock (w : world) : world :=
  mk_world (optimizer_settings w) (benchmark_settings w) (engine w)
    (calls w) (S (clock w)).

(** Calling a collaborator: the call is logged, then it acts. *)
Definition call {A} (ev : event) (op : ext_op A) : M A :=
  λ w, let w1 := log_call ev w in
       let '(o, e) := op (engine w1) in (o, set_engine e w1).

(** [logger.info(msg)] *)
Definition logger_info (msg : message) : M unit :=
  λ w, (Ret (), log_call (EvLoggerInfo msg) w).

(** Reading an attribute of an engine. *)
Definition attr {A} (f : engine_state → A) : M A := λ w, (Ret (f (engine w)), w).

(** [time()] *)
Definition time : M Z := λ w, (Ret (Z.of_nat (clock w)), w).

(** [mapping[key]] on a dict: [KeyError] when the key is missing. *)
Definition getitem {V} (m : gmap string V) (key : string) : outcome V :=
  match m !! key with
  | Some v => Ret v
  | None => Raise (KeyError key)
  end.

(** [self.optimizer_settings[key]] and [self.benchmark_settings[key]] *)
Definition optimizer_setting (key : string) : M value :=
  λ w, (getitem (optimizer_settings w) key, w).

Definition benchmark_setting (key : string) : M value :=
  λ w, (getitem (benchmark_settings w) key, w).

(** ** Blocking calls and the deadline guard *)

(** A blocking call of an engine: it works for [length (ticks p)] seconds,
    each second of work acting on the engine state, and then finishes with a
    result or an exception. *)
Record proc (A : Type) := mk_proc {
  ticks : list (engine_state → engine_state);
  finish : ext_op A
}.
Arguments mk_proc {A} ticks finish.
Arguments ticks {A} p.
Arguments finish {A} p.

Definition duration {A} (p : proc A) : nat := length (ticks p).

(** One second of work. *)
Definition tick (step : engine_state → engine_state) (w : world) : world :=
  advance_clock (set_engine (step (engine w)) w).

Definition finish_proc {A} (op : ext_op A) : M A :=
  λ w, let '(o, e) := op (engine w) in (o, set_engine e w).

(** The blocking call, left to run to its end. *)
Fixpoint run_ticks {A} (steps : list (engine_state → engine_state))
    (op : ext_op A) : M A :=
  match steps with
  | [] => finish_proc op
  | step :: rest => λ w, run_ticks rest op (tick step w)
  end.

Definition run_proc {A} (p : proc A) : M A := run_ticks (ticks p) (finish p).

(** Modelled from the spec: [time_limit] of [utils/utils.py] is not among the
    sources.  "[run_with_deadline(deadline_seconds, callable)] executes
    [callable] to completion or signals a [DeadlineExceeded] condition once
    [deadline_seconds] have elapsed, whichever comes first.  It must not
    corrupt or discard engine-internal state accumulated before the deadline";
    "if the callable completes exactly at the boundary, the deadline must not
    spuriously fire after a successful return".  The alarm is looked at when
    the callable is about to work for another second: with no second left
    the guard raises [TimeoutException] and the state is the one reached so
    far; a callable that has no work left returns, which disarms the alarm. *)
Fixpoint guard {A} (seconds : nat) (steps : list (engine_state → engine_state))
    (op : ext_op A) {struct steps} : M A :=
  match steps with
  | [] => finish_proc op
  | step :: rest =>
      match seconds with
      | O => raise TimeoutException
      | S remaining => λ w, guard remaining rest op (tick step w)
      end
  end.

Definition time_limit {A} (seconds : nat) (p : proc A) : M A :=
  guard seconds (ticks p) (finish p).

(** The argument of [time_limit] is a number of seconds. *)
Definition as_seconds (v : value) : outcome nat :=
  match v with
  | VInt n => Ret (Z.to_nat n)
  | _ => Raise (TypeError "an integer is required")
  end.

(** ** The budget-to-run-count translator *)

(** Modelled from the spec: [get_number_ta_runs] of [utils/optimizer_utils.py]
    is not among the sources.  "Given a logical iteration count
    [num_iterations], a budget ladder from [min_budget] to [max_budget], and an
    elimination factor [eta], compute the total number of individual
    evaluations implied across all rungs of the ladder for all iterations";
    "it must match exactly the run-count accounting the bandit-based
    coordinator would itself perform".  The accounting is the bracket
    schedule of the bandit engine: with [max_SH_iter] rungs on the ladder,
    iteration [i] starts on rung [s = max_SH_iter - 1 - i mod max_SH_iter]
    with [n0 = floor (max_SH_iter / (s + 1)) * eta ^ s] configurations and
    keeps [max (floor (n0 / eta ^ k)) 1] of them on its [k]-th rung.
    Arithmetic is exact, on integers. *)

(** The number of times [budget] can be multiplied by [eta] without passing
    [max_budget]: [floor (log (max_budget / budget) / log eta)]. *)
Fixpoint ladder_steps (fuel : nat) (eta budget max_budget : Z) : Z :=
  match fuel with
  | O => 0
  | S fuel' =>
      if budget * eta <=? max_budget
      then 1 + ladder_steps fuel' eta (budget * eta) max_budget
      else 0
  end.

Definition max_SH_iter (min_budget max_budget eta : Z) : Z :=
  ladder_steps (Z.to_nat max_budget) eta min_budget max_budget + 1.

Definition sumZ (l : list Z) : Z := foldr Z.add 0 l.

(** The configurations evaluated on each rung of the bracket of one
    iteration. *)
Definition bracket (min_budget max_budget eta iteration : Z) : list Z :=
  let rungs := max_SH_iter min_budget max_budget eta in
  let s := rungs - 1 - iteration `mod` rungs in
  let n0 := rungs `div` (s + 1) * eta ^ s in
  (λ k, Z.max (n0 `div` eta ^ k) 1) <$> seqZ 0 (s + 1).

Definition get_number_ta_runs (iterations min_budget max_budget eta : Z) : Z :=
  sumZ ((λ i, sumZ (bracket min_budget max_budget eta i)) <$> seqZ 0 iterations).

(** The arguments arrive as values of the settings mapping. *)
Definition as_int (v : value) : outcome Z :=
  match v with
  | VInt n => Ret n
  | VBool b => Ret (if b then 1 else 0)
  | _ => Raise (TypeError "a number is required")
  end.

(** ** The collaborators *)

(** The behaviour of everything the coordinators call and do not define.
    Constructors and methods act on the engine state and may raise; the two
    blocking calls ([master.run], [smac.optimize]) are processes; the queries
    on a [Result] are functions of their arguments and may raise.
    [fix_timestamps] rewrites one iteration object, or raises.  [hpres_Result]
    is the constructor [hpres.Result(data, config)]: it may raise, and since
    it is handed the data objects of the engine's warm-start iterations
    themselves, not copies, what it does to them shows in the engine state. *)
Record collaborators := mk_collaborators {
  get_configuration_space : ext_op ConfigurationSpace;
  objective_function : Configuration → gmap string value → ext_op (gmap string value);
  json_result_logger : string → bool → ext_op unit;
  NameServer : string → string → string → ext_op unit;
  ns_start : ext_op (string * Z);
  CustomWorker : gmap string value → string → Z → string → ext_op unit;
  worker_run : bool → ext_op unit;
  BOHB : BOHB_kwargs → ext_op unit;
  master_run : value → engine_state → proc (option Result);
  fix_timestamps : Z → iteration → outcome iteration;
  hpres_Result : list iteration_data → gmap string value → ext_op Result;
  master_shutdown : bool → ext_op unit;
  ns_shutdown : ext_op unit;
  get_id2config_mapping : Result → outcome (gmap config_id (gmap string Configuration));
  get_incumbent_id : Result → outcome (option config_id);
  get_runs_by_id : Result → option config_id → outcome (list (gmap string value));
  Scenario : scenario_dict → ext_op unit;
  RandomState : value → ext_op unit;
  SMAC4HPO : SMAC4HPO_kwargs → ext_op unit;
  smac_optimize : engine_state → proc unit;
  parse_fidelity_type : value → outcome (value → outcome value)
}.

(** ** Small pieces of Python used by the coordinators *)

(** [l[-1]] *)
Definition index_last {A} (l : list A) : outcome A :=
  match last l with
  | Some x => Ret x
  | None => Raise IndexError
  end.

Definition repr_id (i : option config_id) : string :=
  match i with
  | None => "None"
  | Some (a, b, c) => "(" +:+ pretty a +:+ ", " +:+ pretty b +:+ ", " +:+ pretty c +:+ ")"
  end.

(** [id2config[incumbent]], where [incumbent] may be [None]. *)
Definition getitem_id {V} (m : gmap config_id V) (i : option config_id) : outcome V :=
  match i ≫= (m !!.) with
  | Some v => Ret v
  | None => Raise (KeyError (repr_id i))
  end.

(** The format [{v:.2f}]: the number that is printed. *)
Definition format_2f (v : value) : outcome Z :=
  match v with
  | VInt n => Ret n
  | VBool b => Ret (if b then 1 else 0)
  | VStr _ => Raise (ValueError "Unknown format code 'f' for object of type 'str'")
  | _ => Raise (TypeError "unsupported format string")
  end.

(** [f(cfg, **fidelity, **settings)] with [fidelity = {name: coerced}]: the
    keywords must be strings, and no keyword may be given twice. *)
Definition keyword_arguments (name coerced : value) (settings : gmap string value)
    : outcome (gmap string value) :=
  match name with
  | VStr key =>
      match settings !! key with
      | None => Ret (<[key := coerced]> settings)
      | Some _ => Raise (TypeError "got multiple values for keyword argument")
      end
  | _ => Raise (TypeError "keywords must be strings")
  end.

(** ** The coordinators *)

(** Attributes of [self] that are values; [self.benchmark] is the adapter of
    [collaborators], the two settings mappings are those of the [world]. *)
Record Optimizer := mk_Optimizer {
  cs : ConfigurationSpace;
  rng : value;
  intensifier : OptimizerEnum
}.

Record BOHBOptimizer := mk_BOHBOptimizer {
  bohb_base : Optimizer;
  run_id : string
}.

Record SMACOptimizer := mk_SMACOptimizer {
  smac_base : Optimizer;
  smac_intensifier : intensifier_class
}.

Definition set_warmstart (f : list iteration → list iteration) (e : engine_state)
    : engine_state :=
  mk_engine (master_iterations e) (f (master_warmstart_iteration e))
    (master_time_ref e) (master_config e) (smac_solver_incumbent e)
    (smac_output_dir e).

Section coordinators.

Variable C : collaborators.

(** *** [Optimizer] *)

(** [Optimizer.__init__]: the configuration space is asked of the benchmark
    adapter, the other arguments are stored. *)
Definition Optimizer_init (intensifier : OptimizerEnum) (rng : value) : M Optimizer :=
  cs ← call EvGetConfigurationSpace (get_configuration_space C);
  mret (mk_Optimizer cs rng intensifier).

Definition Optimizer_setup : M unit := raise NotImplementedError.

Definition Optimizer_run : M value := raise NotImplementedError.

(** *** [BOHBOptimizer] *)

Definition BOHBOptimizer_init (intensifier : OptimizerEnum) (rng : value)
    : M BOHBOptimizer :=
  base ← Optimizer_init intensifier rng;
  mret (mk_BOHBOptimizer base ("BOHB_optimization_seed_" +:+ py_str rng)).

Definition BOHBOptimizer_setup : M unit := mret ().

(** The statements of [run] up to the construction of the engine: result
    logger, name server, worker, [BOHB]. *)
Definition BOHB_start (self : BOHBOptimizer) : M unit :=
  output_dir ← optimizer_setting "output_dir";
  call (EvJsonResultLogger (py_str output_dir) true)
       (json_result_logger C (py_str output_dir) true);;
  output_dir ← optimizer_setting "output_dir";
  call (EvNameServer (run_id self) "localhost" (py_str output_dir))
       (NameServer C (run_id self) "localhost" (py_str output_dir));;
  '(ns_host, ns_port) ← call EvNsStart (ns_start C);
  settings ← (λ w, (Ret (benchmark_settings w), w));
  call (EvCustomWorker settings ns_host ns_port (run_id self))
       (CustomWorker C settings ns_host ns_port (run_id self));;
  call (EvWorkerRun true) (worker_run C true);;
  eta ← optimizer_setting "eta";
  min_budget ← optimizer_setting "min_budget";
  max_budget ← optimizer_setting "max_budget";
  let kw := mk_BOHB_kwargs (cs (bohb_base self)) (run_id self) ns_host ns_host
              ns_port eta min_budget max_budget in
  call (EvBOHB kw) (BOHB C kw).

(** [for iteration in master.warmstart_iteration:
       iteration.fix_timestamps(master.time_ref)];
    [iteration] is the object at [index] of the engine's list: rewriting it
    rewrites that entry, and an exception of the method ends the loop with
    the earlier entries rewritten. *)
Fixpoint fix_warmstart (index : nat) (todo : list iteration) : M unit :=
  match todo with
  | [] => mret ()
  | iteration :: rest =>
      time_ref ← attr master_time_ref;
      call (EvFixTimestamps index time_ref)
           (λ e, match fix_timestamps C time_ref iteration with
                 | Ret fixed => (Ret (), set_warmstart (λ l, <[index := fixed]> l) e)
                 | Raise x => (Raise x, e)
                 end);;
      fix_warmstart (S index) rest
  end.

(** The body of [except TimeoutException]. *)
Definition BOHB_recover : M (option Result) :=
  warmstart ← attr master_warmstart_iteration;
  fix_warmstart 0 warmstart;;
  warmstart ← attr master_warmstart_iteration;
  let ws_data := data <$> warmstart in
  iterations ← attr master_iterations;
  config ← attr master_config;
  let HB_iteration_data := ((λ it, deepcopy (data it)) <$> iterations) ++ ws_data in
  result ← call (EvResult HB_iteration_data config)
                (hpres_Result C HB_iteration_data config);
  logger_info WALLCLOCK_LIMIT_REACHED;;
  mret (Some result).

(** [master.run(n_iterations=n)] *)
Definition master_run_call (seconds : nat) (n : value) : M (option Result) :=
  λ w, let w1 := log_call (EvMasterRun n) w in
       time_limit seconds (master_run C n (engine w1)) w1.

(** The [try ... except TimeoutException] statement. *)
Definition BOHB_optimize : M (option Result) :=
  try_except_TimeoutException
    (limit ← optimizer_setting "time_limit_in_s";
     seconds ← lift (as_seconds limit);
     n ← optimizer_setting "num_iterations";
     master_run_call seconds n)
    BOHB_recover.

(** [master.shutdown(shutdown_workers=True); ns.shutdown()] *)
Definition BOHB_teardown : M unit :=
  call (EvMasterShutdown true) (master_shutdown C true);;
  call EvNsShutdown (ns_shutdown C).

(** [if result is not None: ...]: the incumbent is looked up and reported. *)
Definition BOHB_report (result : option Result) : M unit :=
  match result with
  | Some result =>
      id2config ← lift (get_id2config_mapping C result);
      incumbent ← lift (get_incumbent_id C result);
      runs ← lift (get_runs_by_id C result incumbent);
      last_run ← lift (index_last runs);
      inc_value ← lift (getitem last_run "loss");
      entry ← lift (getitem_id id2config incumbent);
      inc_cfg ← lift (getitem entry "config");
      shown ← lift (format_2f inc_value);
      logger_info (Inc_Config inc_cfg shown)
  | None => mret ()
  end.

Definition BOHBOptimizer_run (self : BOHBOptimizer) : M value :=
  BOHB_start self;;
  result ← BOHB_optimize;
  BOHB_teardown;;
  BOHB_report result;;
  optimizer_setting "output_dir".

(** *** [SMACOptimizer] *)

Definition SMACOptimizer_init (intensifier : OptimizerEnum) (rng : value)
    : M SMACOptimizer :=
  base ← Optimizer_init intensifier rng;
  match intensifier with
  | HYPERBAND => mret (mk_SMACOptimizer base Hyperband)
  | SUCCESSIVE_HALVING => mret (mk_SMACOptimizer base SuccessiveHalving)
  | OTHER _ => raise (ValueError "Currently no other intensifier is supported")
  end.

Definition SMACOptimizer_setup : M unit := mret ().

(** The objective handed to the engine as [tae_runner]. *)
Definition optimization_function_wrapper (cfg : Configuration)
    (seed instance budget : value) : M value :=
  declared ← benchmark_setting "fidelity_type";
  fidelity_type ← lift (parse_fidelity_type C declared);
  name ← benchmark_setting "fidelity_name";
  coerced ← lift (fidelity_type budget);
  kwargs ← (λ w, (keyword_arguments name coerced (benchmark_settings w), w));
  result_dict ← call (EvObjectiveFunction cfg kwargs) (objective_function C cfg kwargs);
  lift (getitem result_dict "function_value").

(** The statements of [run] up to the construction of the engine: run-count
    cap, scenario, [SMAC4HPO]. *)
Definition SMAC_start (self : SMACOptimizer) : M unit :=
  iterations ← optimizer_setting "num_iterations";
  min_budget ← optimizer_setting "min_budget";
  max_budget ← optimizer_setting "max_budget";
  eta ← optimizer_setting "eta";
  iterations ← lift (as_int iterations);
  min_budget ← lift (as_int min_budget);
  max_budget ← lift (as_int max_budget);
  eta ← lift (as_int eta);
  let number_ta_runs := get_number_ta_runs iterations min_budget max_budget eta in
  wallclock_limit ← optimizer_setting "time_limit_in_s";
  cutoff ← optimizer_setting "cutoff_in_s";
  memory_limit ← optimizer_setting "mem_limit_in_mb";
  output_dir ← optimizer_setting "output_dir";
  let scenario := mk_scenario_dict "quality" wallclock_limit (cs (smac_base self))
                    "true" true number_ta_runs cutoff memory_limit
                    (py_str output_dir) in
  call (EvScenario scenario) (Scenario C scenario);;
  call (EvRandomState (rng (smac_base self))) (RandomState C (rng (smac_base self)));;
  initial_budget ← optimizer_setting "min_budget";
  max_budget ← optimizer_setting "max_budget";
  eta ← optimizer_setting "eta";
  let kw := mk_SMAC4HPO_kwargs scenario (rng (smac_base self))
              (smac_intensifier self) initial_budget max_budget eta in
  call (EvSMAC4HPO kw) (SMAC4HPO C kw).

(** [smac.optimize()] *)
Definition smac_optimize_call : M unit :=
  λ w, let w1 := log_call EvSmacOptimize w in
       run_proc (smac_optimize C (engine w1)) w1.

(** [incumbent = smac.solver.incumbent]; the read is logged. *)
Definition read_incumbent : M (option Configuration) :=
  λ w, (Ret (smac_solver_incumbent (engine w)), log_call EvSolverIncumbent w).

Definition SMACOptimizer_run (self : SMACOptimizer) : M value :=
  SMAC_start self;;
  start_time ← time;
  '(_, incumbent) ← try_finally smac_optimize_call read_incumbent;
  end_time ← time;
  logger_info (Finished_Optimization (end_time - start_time) incumbent);;
  output_dir ← attr smac_output_dir;
  mret (Path output_dir).

End coordinators.

(** ** Test doubles

    Collaborators that can be run: a benchmark adapter that returns a constant
    loss, a bandit engine that completes one iteration per second, and a
    model-based engine that writes its run log below the output directory of
    its scenario, in a directory of its own per seed (as the engine does). *)
Module Fakes.

Definition returns {A} (a : A) : ext_op A := λ e, (Ret a, e).

Definition raises {A} (x : exn) : ext_op A := λ e, (Raise x, e).

Definition no_engine : engine_state := mk_engine [] [] 0 ∅ None "".

Definition datum (submitted finished : Z) : Datum :=
  mk_Datum {[ 1 := {[ "submitted" := submitted; "finished" := finished ]} ]}.

Definition warm_iteration : iteration :=
  mk_iteration {[ (0, 0, 0) := datum (-7) (-2) ]}.

Definition fresh_iteration (i : Z) : iteration :=
  mk_iteration {[ (i, 0, 0) := datum (10 * i) (10 * i + 5) ]}.

(** An engine carrying one iteration over from an earlier run. *)
Definition warm_engine : engine_state :=
  mk_engine [] [warm_iteration] 100 {[ "eta" := VInt 3 ]} None "".

Definition add_iteration (e : engine_state) : engine_state :=
  mk_engine (master_iterations e ++ [fresh_iteration (Z.of_nat (length (master_iterations e)))])
    (master_warmstart_iteration e) (master_time_ref e) (master_config e)
    (smac_solver_incumbent e) (smac_output_dir e).

Definition result_of (e : engine_state) : Result :=
  mk_Result ((data <$> master_iterations e) ++ (data <$> master_warmstart_iteration e))
    (master_config e).

(** [master.run]: one iteration per second. *)
Definition one_per_second (n : value) (e : engine_state) : proc (option Result) :=
  match n with
  | VInt n => mk_proc (replicate (Z.to_nat n) add_iteration)
                (λ e, (Ret (Some (result_of e)), e))
  | _ => mk_proc [] (raises (TypeError "n_iterations"))
  end.

(** [fix_timestamps]: the reference time is added to every time stamp. *)
Definition add_time_ref (time_ref : Z) (it : iteration) : iteration :=
  let shift (stamps : gmap string Z) : gmap string Z := Z.add time_ref <$> stamps in
  mk_iteration ((λ d : Datum, mk_Datum (shift <$> time_stamps d)) <$> data it).

Definition first_id (r : Result) : outcome (option config_id) :=
  match result_data r with
  | [] => Ret None
  | _ => Ret (Some (0, 0, 0))
  end.

Definition one_run (r : Result) (i : option config_id)
    : outcome (list (gmap string value)) :=
  match i with
  | Some _ => Ret [ {[ "loss" := VInt 5 ]} ]
  | None => Raise (KeyError "None")
  end.

Definition one_config (r : Result)
    : outcome (gmap config_id (gmap string Configuration)) :=
  Ret {[ (0, 0, 0) := {[ "config" := {[ "x" := VInt 1 ]} ]} ]}.

Definition set_smac (incumbent : option Configuration) (output_dir : string)
    (e : engine_state) : engine_state :=
  mk_engine (master_iterations e) (master_warmstart_iteration e) (master_time_ref e)
    (master_config e) incumbent output_dir.

(** [SMAC4HPO(...)]: the run log goes to [<output_dir>/run_<seed>]. *)
Definition new_smac (kw : SMAC4HPO_kwargs) : ext_op unit :=
  λ e, (Ret (), set_smac None
                  (sc_output_dir (sk_scenario kw) +:+ "/run_" +:+ py_str (sk_rng kw)) e).

Definition found (x : Z) (e : engine_state) : engine_state :=
  set_smac (Some {[ "x" := VInt x ]}) (smac_output_dir e) e.

(** [smac.optimize]: two seconds of search, an incumbent after each. *)
Definition search_two_seconds (e : engine_state) : proc unit :=
  mk_proc [found 1; found 2] (returns ()).

(** [smac.optimize] failing after one second of search. *)
Definition search_failing (e : engine_state) : proc unit :=
  mk_proc [found 1] (raises (EngineError "target algorithm crashed")).

Definition fidelity_types (declared : value) : outcome (value → outcome value) :=
  match declared with
  | VStr "int" => Ret (λ v, match as_int v with Ret n => Ret (VInt n) | Raise x => Raise x end)
  | VStr "str" => Ret (λ v, Ret (VStr (py_str v)))
  | _ => Raise (ValueError "unknown fidelity type")
  end.

Definition constant_loss (cfg : Configuration) (kwargs : gmap string value)
    : ext_op (gmap string value) :=
  returns {[ "function_value" := VInt 3; "cost" := VInt 1 ]}.

(** Collaborators that all succeed. *)
Definition quiet : collaborators :=
  {| get_configuration_space := returns (ConfigurationSpace_obj 0);
     objective_function := constant_loss;
     json_result_logger := λ _ _, returns ();
     NameServer := λ _ _ _, returns ();
     ns_start := returns ("127.0.0.1", 9090);
     CustomWorker := λ _ _ _ _, returns ();
     worker_run := λ _, returns ();
     BOHB := λ _, returns ();
     master_run := one_per_second;
     fix_timestamps := λ time_ref it, Ret (add_time_ref time_ref it);
     hpres_Result := λ HB_iteration_data config, returns (mk_Result HB_iteration_data config);
     master_shutdown := λ _, returns ();
     ns_shutdown := returns ();
     get_id2config_mapping := one_config;
     get_incumbent_id := first_id;
     get_runs_by_id := one_run;
     Scenario := λ _, returns ();
     RandomState := λ _, returns ();
     SMAC4HPO := new_smac;
     smac_optimize := search_two_seconds;
     parse_fidelity_type := fidelity_types |}.

Definition with_master_run (f : value → engine_state → proc (option Result))
    (c : collaborators) : collaborators :=
  mk_collaborators (get_configuration_space c) (objective_function c)
    (json_result_logger c) (NameServer c) (ns_start c) (CustomWorker c)
    (worker_run c) (BOHB c) f (fix_timestamps c) (hpres_Result c)
  (master_shutdown c)
    (ns_shutdown c) (get_id2config_mapping c) (get_incumbent_id c)
    (get_runs_by_id c) (Scenario c) (RandomState c) (SMAC4HPO c)
    (smac_optimize c) (parse_fidelity_type c).

Definition with_master_shutdown (f : bool → ext_op unit) (c : collaborators)
    : collaborators :=
  mk_collaborators (get_configuration_space c) (objective_function c)
    (json_result_logger c) (NameServer c) (ns_start c) (CustomWorker c)
    (worker_run c) (BOHB c) (master_run c) (fix_timestamps c) (hpres_Result c) f
    (ns_shutdown c) (get_id2config_mapping c) (get_incumbent_id c)
    (get_runs_by_id c) (Scenario c) (RandomState c) (SMAC4HPO c)
    (smac_optimize c) (parse_fidelity_type c).

Definition with_smac_optimize (f : engine_state → proc unit) (c : collaborators)
    : collaborators :=
  mk_collaborators (get_configuration_space c) (objective_function c)
    (json_result_logger c) (NameServer c) (ns_start c) (CustomWorker c)
    (worker_run c) (BOHB c) (master_run c) (fix_timestamps c) (hpres_Result c)
    (master_shutdown c) (ns_shutdown c) (get_id2config_mapping c)
    (get_incumbent_id c) (get_runs_by_id c) (Scenario c)
    (RandomState c) (SMAC4HPO c) f (parse_fidelity_type c).

(** [master.run] dying of something else than the deadline. *)
Definition crash_after_a_second (n : value) (e : engine_state) : proc (option Result) :=
  mk_proc [add_iteration] (raises (EngineError "worker died")).

Definition settings (time_limit_in_s num_iterations : Z) : gmap string value :=
  {[ "output_dir" := VPath "out";
     "time_limit_in_s" := VInt time_limit_in_s;
     "cutoff_in_s" := VInt 10;
     "mem_limit_in_mb" := VInt 4000;
     "num_iterations" := VInt num_iterations;
     "min_budget" := VInt 1;
     "max_budget" := VInt 27;
     "eta" := VInt 3 ]}.

Definition benchmark : gmap string value :=
  {[ "fidelity_name" := VStr "epoch";
     "fidelity_type" := VStr "int";
     "dataset" := VStr "iris" ]}.

(** A world with a deadline of [time_limit_in_s] seconds and
    [num_iterations] iterations asked for. *)
Definition a_world (time_limit_in_s num_iterations : Z) : world :=
  mk_world (settings time_limit_in_s num_iterations) benchmark warm_engine [] 0.

(** A world whose engine carries nothing over and has not run yet. *)
Definition cold_world (time_limit_in_s num_iterations : Z) : world :=
  mk_world (settings time_limit_in_s num_iterations) benchmark no_engine [] 0.

(** Settings from which [key] has been dropped. *)
Definition world_without (key : string) : world :=
  mk_world (delete key (settings 3 2)) benchmark warm_engine [] 0.

(** Benchmark settings that already hold a value under the fidelity name. *)
Definition clashing_world : world :=
  mk_world (settings 3 2) (<["epoch" := VInt 1]> benchmark) warm_engine [] 0.

(** An adapter whose result has no [function_value]. *)
Definition no_value (cfg : Configuration) (kwargs : gmap string value)
    : ext_op (gmap string value) :=
  returns {[ "cost" := VInt 1 ]}.

Definition with_objective_function
    (f : Configuration → gmap string value → ext_op (gmap string value))
    (c : collaborators) : collaborators :=
  mk_collaborators (get_configuration_space c) f
    (json_result_logger c) (NameServer c) (ns_start c) (CustomWorker c)
    (worker_run c) (BOHB c) (master_run c) (fix_timestamps c) (hpres_Result c)
  (master_shutdown c)
    (ns_shutdown c) (get_id2config_mapping c) (get_incumbent_id c)
    (get_runs_by_id c) (Scenario c) (RandomState c) (SMAC4HPO c)
    (smac_optimize c) (parse_fidelity_type c).

Definition with_ns_shutdown (f : ext_op unit) (c : collaborators) : collaborators :=
  mk_collaborators (get_configuration_space c) (objective_function c)
    (json_result_logger c) (NameServer c) (ns_start c) (CustomWorker c)
    (worker_run c) (BOHB c) (master_run c) (fix_timestamps c) (hpres_Result c)
  (master_shutdown c)
    f (get_id2config_mapping c) (get_incumbent_id c)
    (get_runs_by_id c) (Scenario c) (RandomState c) (SMAC4HPO c)
    (smac_optimize c) (parse_fidelity_type c).

Definition bohb : BOHBOptimizer :=
  mk_BOHBOptimizer (mk_Optimizer (ConfigurationSpace_obj 0) (VInt 1) (OTHER "BOHB"))
    "BOHB_optimization_seed_1".

Definition smac : SMACOptimizer :=
  mk_SMACOptimizer (mk_Optimizer (ConfigurationSpace_obj 0) (VInt 1) HYPERBAND) Hyperband.

End Fakes.

(** ** Vocabulary of the statements *)

(** The two settings mappings of [w'] are those of [w]. *)
Definition same_settings (w w' : world) : Prop :=
  optimizer_settings w' = optimizer_settings w
  ∧ benchmark_settings w' = benchmark_settings w.

(** A computation leaves the settings mappings as they are, whatever its
    outcome. *)
Definition preserves_settings {A} (m : M A) : Prop :=
  ∀ w, same_settings w (snd (m w)).

(** A computation adds no call of some kind to the log, whatever its
    outcome. *)
Definition adds_no {A} (kind : event → bool) (m : M A) : Prop :=
  ∀ w, count_calls kind (calls (snd (m w))) = count_calls kind (calls w).

(** * Properties *)

(** ** The deadline guard *)

Lemma run_ticks_clock {A} (steps : list (engine_state → engine_state)) (op : ext_op A) :
  ∀ w, clock (snd (run_ticks steps op w)) = (clock w + length steps)%nat.
Proof.
  induction steps as [|step rest IH]; intros w; simpl.
  - unfold finish_proc. destruct (op (engine w)); simpl. lia.
  - rewrite IH. simpl. lia.
Qed.

Lemma guard_in_time {A} (steps : list (engine_state → engine_state)) (op : ext_op A) :
  ∀ seconds w, (length steps ≤ seconds)%nat →
    guard seconds steps op w = run_ticks steps op w.
Proof.
  induction steps as [|step rest IH]; intros seconds w Hle; simpl.
  - reflexivity.
  - destruct seconds as [|remaining]; simpl in Hle; [lia|].
    apply IH. lia.
Qed.

Lemma guard_expired {A} (steps : list (engine_state → engine_state)) (op : ext_op A) :
  ∀ seconds w, (seconds < length steps)%nat →
    fst (guard seconds steps op w) = Raise TimeoutException
    ∧ clock (snd (guard seconds steps op w)) = (clock w + seconds)%nat.
Proof.
  induction steps as [|step rest IH]; intros seconds w Hlt; simpl in *.
  - lia.
  - destruct seconds as [|remaining]; simpl.
    + split; [reflexivity | lia].
    + destruct (IH remaining (tick step w)) as [Hraise Hclock]; [lia|].
      split; [exact Hraise|]. rewrite Hclock. simpl. lia.
Qed.

(** C3.  A callable that needs [t] seconds, under a deadline of [seconds]:
    if [t < seconds] the guard does what the callable does, result and state,
    and adds no exception of its own; if [t > seconds] the guard raises
    [TimeoutException] when exactly [seconds] seconds have elapsed, not
    earlier; if [t = seconds] the callable's return wins and the guard again
    does what the callable does. *)
Theorem time_limit_deadline {A} (seconds : nat) (p : proc A) (w : world) :
  ((duration p < seconds)%nat →
     time_limit seconds p w = run_proc p w
     ∧ clock (snd (time_limit seconds p w)) = (clock w + duration p)%nat)
  ∧ ((seconds < duration p)%nat →
     fst (time_limit seconds p w) = Raise TimeoutException
     ∧ clock (snd (time_limit seconds p w)) = (clock w + seconds)%nat)
  ∧ (duration p = seconds →
     time_limit seconds p w = run_proc p w).
Proof.
  unfold time_limit, run_proc, duration. split; [|split].
  - intros Hlt. split.
    + apply guard_in_time. lia.
    + rewrite guard_in_time by lia. apply run_ticks_clock.
  - intros Hlt. apply guard_expired. assumption.
  - intros Heq. apply guard_in_time. lia.
Qed.

Lemma time_limit_deadline_witness :
  let p := Fakes.one_per_second (VInt 2) Fakes.warm_engine in
  let w := Fakes.a_world 3 2 in
  (time_limit 3 p w = run_proc p w ∧ clock (snd (time_limit 3 p w)) = 2%nat)
  ∧ (fst (time_limit 1 p w) = Raise TimeoutException
     ∧ clock (snd (time_limit 1 p w)) = 1%nat)
  ∧ time_limit 2 p w = run_proc p w.
Proof.
  intros p w.
  split; [|split].
  - apply (proj1 (time_limit_deadline 3 p w)). vm_compute. lia.
  - apply (proj1 (proj2 (time_limit_deadline 1 p w))). vm_compute. lia.
  - apply (proj2 (proj2 (time_limit_deadline 2 p w))). reflexivity.
Defined.

(** ** The budget-to-run-count translator *)

Lemma sumZ_nonneg (l : list Z) : Forall (λ x, 0 ≤ x) l → 0 ≤ sumZ l.
Proof. induction 1; simpl; lia. Qed.

Lemma sumZ_app (l k : list Z) : sumZ (l ++ k) = sumZ l + sumZ k.
Proof. induction l as [|x l IH]; simpl; lia. Qed.

Lemma ladder_steps_nonneg (fuel : nat) (eta : Z) :
  ∀ budget max_budget, 0 ≤ ladder_steps fuel eta budget max_budget.
Proof.
  induction fuel as [|fuel IH]; intros budget max_budget; simpl; [lia|].
  destruct (budget * eta <=? max_budget); [|lia].
  specialize (IH (budget * eta) max_budget). lia.
Qed.

Lemma max_SH_iter_pos (min_budget max_budget eta : Z) :
  1 ≤ max_SH_iter min_budget max_budget eta.
Proof.
  unfold max_SH_iter.
  pose proof (ladder_steps_nonneg (Z.to_nat max_budget) eta min_budget max_budget). lia.
Qed.

(** On a ladder with [max_budget ≥ min_budget > 0] and [eta > 1] the fuel is
    enough: the number of rungs above the first is the integer logarithm
    [floor (log (max_budget / min_budget) / log eta)]. *)
Lemma ladder_steps_log (eta max_budget : Z) (fuel : nat) :
  1 < eta →
  ∀ budget, 0 < budget → budget ≤ max_budget → max_budget - budget < Z.of_nat fuel →
    budget * eta ^ ladder_steps fuel eta budget max_budget ≤ max_budget
    ∧ max_budget < budget * eta ^ (ladder_steps fuel eta budget max_budget + 1).
Proof.
  intros Heta. induction fuel as [|fuel IH]; intros budget Hpos Hle Hfuel; [lia|].
  cbn [ladder_steps]. destruct (Z.leb_spec (budget * eta) max_budget) as [Hstep|Hstop].
  - pose proof (ladder_steps_nonneg fuel eta (budget * eta) max_budget) as Hk.
    destruct (IH (budget * eta)) as [Hlow Hhigh]; [nia | exact Hstep | nia |].
    set (k := ladder_steps fuel eta (budget * eta) max_budget) in *.
    replace (1 + k) with (Z.succ k) by lia.
    replace (Z.succ k + 1) with (Z.succ (k + 1)) by lia.
    rewrite !Z.pow_succ_r by lia.
    rewrite !Z.mul_assoc. split; [exact Hlow | exact Hhigh].
  - rewrite Z.pow_0_r, Z.pow_1_r. lia.
Qed.

Lemma max_SH_iter_log (min_budget max_budget eta : Z) :
  0 < min_budget → min_budget ≤ max_budget → 1 < eta →
  min_budget * eta ^ (max_SH_iter min_budget max_budget eta - 1) ≤ max_budget
  ∧ max_budget < min_budget * eta ^ max_SH_iter min_budget max_budget eta.
Proof.
  intros Hpos Hle Heta. unfold max_SH_iter.
  replace (ladder_steps (Z.to_nat max_budget) eta min_budget max_budget + 1 - 1)
    with (ladder_steps (Z.to_nat max_budget) eta min_budget max_budget) by lia.
  apply ladder_steps_log; [exact Heta | exact Hpos | exact Hle | lia].
Qed.

Lemma bracket_each (min_budget max_budget eta i : Z) :
  Forall (λ x, 1 ≤ x) (bracket min_budget max_budget eta i).
Proof.
  unfold bracket. apply Forall_fmap, Forall_forall. intros k _. simpl. lia.
Qed.

Lemma sumZ_at_least_length (l : list Z) :
  Forall (λ x, 1 ≤ x) l → Z.of_nat (length l) ≤ sumZ l.
Proof. induction 1; simpl length; simpl sumZ; lia. Qed.

(** Every iteration evaluates at least one configuration. *)
Lemma bracket_sum_pos (min_budget max_budget eta i : Z) :
  1 ≤ sumZ (bracket min_budget max_budget eta i).
Proof.
  pose proof (sumZ_at_least_length _ (bracket_each min_budget max_budget eta i)) as Hlen.
  pose proof (max_SH_iter_pos min_budget max_budget eta) as Hpos.
  unfold bracket in Hlen at 1. rewrite length_fmap, length_seqZ in Hlen.
  pose proof (Z.mod_pos_bound i (max_SH_iter min_budget max_budget eta)). lia.
Qed.

Lemma runs_nonneg (f : Z → Z) (from len : Z) :
  (∀ i, 1 ≤ f i) → 0 ≤ sumZ (f <$> seqZ from len).
Proof.
  intros Hf. apply sumZ_nonneg, Forall_fmap, Forall_forall. intros i _. simpl.
  specialize (Hf i). lia.
Qed.

(** C5, as amended.  On a ladder with [max_budget ≥ min_budget > 0] and
    [eta > 1] the translator returns a non-negative integer, at least 1 as
    soon as one iteration is asked for, and the count does not decrease when
    [num_iterations] grows. *)
Theorem get_number_ta_runs_iterations (min_budget max_budget eta : Z) :
  0 < min_budget → min_budget ≤ max_budget → 1 < eta →
  (∀ n, 0 ≤ get_number_ta_runs n min_budget max_budget eta)
  ∧ (∀ n, 1 ≤ n → 1 ≤ get_number_ta_runs n min_budget max_budget eta)
  ∧ (∀ n n', n ≤ n' →
       get_number_ta_runs n min_budget max_budget eta
       ≤ get_number_ta_runs n' min_budget max_budget eta).
Proof.
  intros _ _ _. unfold get_number_ta_runs.
  set (f := λ i, sumZ (bracket min_budget max_budget eta i)).
  assert (∀ i, 1 ≤ f i) as Hf by (intros i; apply bracket_sum_pos).
  repeat split.
  - intros n. apply runs_nonneg, Hf.
  - intros n Hn. replace n with (Z.succ (n - 1)) by lia.
    rewrite seqZ_cons by lia. rewrite fmap_cons. simpl.
    pose proof (Hf 0). pose proof (runs_nonneg f (Z.succ 0) (Z.pred (Z.succ (n - 1))) Hf). lia.
  - intros n n' Hle.
    destruct (Z.le_gt_cases n 0) as [Hn|Hn].
    + replace (seqZ 0 n) with (@nil Z).
      * simpl. apply runs_nonneg, Hf.
      * unfold seqZ. replace (Z.to_nat n) with 0%nat by lia. reflexivity.
    + replace n' with (n + (n' - n)) by lia.
      rewrite seqZ_app by lia. rewrite fmap_app, sumZ_app.
      pose proof (runs_nonneg f (0 + n) (n' - n) Hf). lia.
Qed.

Lemma get_number_ta_runs_iterations_witness :
  0 ≤ get_number_ta_runs 0 1 27 3
  ∧ 1 ≤ get_number_ta_runs 4 1 27 3
  ∧ get_number_ta_runs 3 1 27 3 ≤ get_number_ta_runs 4 1 27 3.
Proof.
  destruct (get_number_ta_runs_iterations 1 27 3) as (H0 & H1 & Hmono); [lia..|].
  split; [apply H0 | split; [apply H1; lia | apply Hmono; lia]].
Defined.

(** The ladder of the end-to-end scenario: four rungs 1, 3, 9, 27, brackets
    of 40, 13, 8 and 4 evaluations. *)
Example get_number_ta_runs_scenario :
  max_SH_iter 1 27 3 = 4
  ∧ bracket 1 27 3 0 = [27; 9; 3; 1]
  ∧ get_number_ta_runs 4 1 27 3 = 65.
Proof. repeat split; reflexivity. Qed.

(** C5 as stated fails: with no iteration the count is 0, not positive, and
    on the ladder from 1 to 27 one iteration evaluates 31 configurations for
    [eta = 2] but 40 for [eta = 3]. *)
Lemma get_number_ta_runs_not_antitone :
  ¬ (∀ n n' min_budget max_budget eta eta' : Z,
       0 < min_budget → min_budget ≤ max_budget → 1 < eta →
       n ≤ n' → eta ≤ eta' →
       0 < get_number_ta_runs n min_budget max_budget eta
       ∧ get_number_ta_runs n min_budget max_budget eta
         ≤ get_number_ta_runs n' min_budget max_budget eta
       ∧ get_number_ta_runs n min_budget max_budget eta'
         ≤ get_number_ta_runs n min_budget max_budget eta).
Proof.
  intros H.
  destruct (H 1 1 1 27 2 3) as (_ & _ & Hle); [lia..|].
  vm_compute in Hle. apply Hle. reflexivity.
Qed.

Example get_number_ta_runs_no_iteration : get_number_ta_runs 0 1 27 3 = 0.
Proof. reflexivity. Qed.

(** ** Running the monad *)

Lemma bind_run {A B} (m : M A) (k : A → M B) (w : world) :
  (m ≫= k) w = match m w with
               | (Ret a, w') => k a w'
               | (Raise x, w') => (Raise x, w')
               end.
Proof. reflexivity. Qed.

Lemma bind_ret {A B} (m : M A) (k : A → M B) (w w' : world) (a : A) :
  m w = (Ret a, w') → (m ≫= k) w = k a w'.
Proof. intros H. rewrite bind_run, H. reflexivity. Qed.

Lemma bind_raise {A B} (m : M A) (k : A → M B) (w w' : world) (x : exn) :
  m w = (Raise x, w') → (m ≫= k) w = (Raise x, w').
Proof. intros H. rewrite bind_run, H. reflexivity. Qed.

Lemma call_run {A} (ev : event) (op : ext_op A) (w : world) :
  call ev op w
  = (fst (op (engine w)), set_engine (snd (op (engine w))) (log_call ev w)).
Proof. unfold call. simpl. destruct (op (engine w)); reflexivity. Qed.

Lemma setting_run (key : string) (v : value) (w : world) :
  optimizer_settings w !! key = Some v → optimizer_setting key w = (Ret v, w).
Proof. intros H. unfold optimizer_setting, getitem. rewrite H. reflexivity. Qed.

Lemma benchmark_setting_run (key : string) (v : value) (w : world) :
  benchmark_settings w !! key = Some v → benchmark_setting key w = (Ret v, w).
Proof. intros H. unfold benchmark_setting, getitem. rewrite H. reflexivity. Qed.

Lemma lift_run {A} (o : outcome A) (a : A) (w : world) :
  o = Ret a → lift o w = (Ret a, w).
Proof. intros ->. reflexivity. Qed.

(** One statement that returns: the run continues with what follows. *)
Ltac step H :=
  erewrite bind_ret
    by (first [ apply setting_run | apply benchmark_setting_run | apply lift_run | idtac ];
        exact H).

(** ** Construction of the model-based coordinator *)

(** C10.  Constructed with an unsupported intensifier, [SMACOptimizer] calls
    the adapter's [get_configuration_space] once, and nothing else, and it
    does so before it looks at the intensifier: an exception of the adapter
    is what the constructor raises, the configuration error comes only after
    the adapter has returned. *)
Theorem SMACOptimizer_init_asks_adapter_first (C : collaborators) (name : string)
    (rng : value) (w : world) :
  calls (snd (SMACOptimizer_init C (OTHER name) rng w))
  = calls w ++ [EvGetConfigurationSpace]
  ∧ fst (SMACOptimizer_init C (OTHER name) rng w)
    = match fst (get_configuration_space C (engine w)) with
      | Ret _ => Raise (ValueError "Currently no other intensifier is supported")
      | Raise x => Raise x
      end.
Proof.
  unfold SMACOptimizer_init, Optimizer_init.
  rewrite !bind_run, call_run.
  destruct (get_configuration_space C (engine w)) as [[cs|x] e]; simpl; split; reflexivity.
Qed.

(** C6.  With an adapter that hands out its configuration space, constructing
    a [SMACOptimizer] with an unsupported intensifier raises the [ValueError]
    at once: no time passes, the settings are untouched, and the log gains no
    call that builds a scenario, starts an engine or a process, or claims a
    resource. *)
Theorem SMACOptimizer_init_unsupported (C : collaborators) (name : string)
    (rng : value) (w : world) (space : ConfigurationSpace) (e : engine_state) :
  get_configuration_space C (engine w) = (Ret space, e) →
  let r := SMACOptimizer_init C (OTHER name) rng w in
  fst r = Raise (ValueError "Currently no other intensifier is supported")
  ∧ clock (snd r) = clock w
  ∧ optimizer_settings (snd r) = optimizer_settings w
  ∧ benchmark_settings (snd r) = benchmark_settings w
  ∧ ∃ new, calls (snd r) = calls w ++ new ∧ Forall (λ ev, allocates ev = false) new.
Proof.
  intros Hcs. unfold SMACOptimizer_init, Optimizer_init.
  rewrite !bind_run, call_run, Hcs. simpl.
  repeat split.
  exists [EvGetConfigurationSpace]. split; [reflexivity|].
  constructor; [reflexivity | constructor].
Qed.

Lemma SMACOptimizer_init_unsupported_witness :
  let r := SMACOptimizer_init Fakes.quiet (OTHER "BOHB") (VInt 1) (Fakes.a_world 3 2) in
  fst r = Raise (ValueError "Currently no other intensifier is supported")
  ∧ clock (snd r) = 0%nat
  ∧ optimizer_settings (snd r) = Fakes.settings 3 2
  ∧ benchmark_settings (snd r) = Fakes.benchmark
  ∧ ∃ new, calls (snd r) = [] ++ new ∧ Forall (λ ev, allocates ev = false) new.
Proof.
  apply (SMACOptimizer_init_unsupported Fakes.quiet "BOHB" (VInt 1) (Fakes.a_world 3 2)
           (ConfigurationSpace_obj 0) Fakes.warm_engine).
  reflexivity.
Defined.

(** ** The objective wrapper *)

(** C7.  With benchmark settings that declare a fidelity type the parser
    knows and a fidelity name that is a string and not itself a key of the
    settings, a budget the type accepts, and an adapter that returns a
    dictionary with a [function_value]: the wrapper calls [objective_function]
    once, with the configuration and with the settings extended by the coerced
    budget under the fidelity name, and returns the [function_value]. *)
Theorem optimization_function_wrapper_call (C : collaborators) (cfg : Configuration)
    (seed instance budget : value) (w : world)
    (declared coerced loss : value) (fidelity_type : value → outcome value)
    (name : string) (result_dict : gmap string value) (e : engine_state) :
  benchmark_settings w !! "fidelity_type" = Some declared →
  parse_fidelity_type C declared = Ret fidelity_type →
  benchmark_settings w !! "fidelity_name" = Some (VStr name) →
  fidelity_type budget = Ret coerced →
  benchmark_settings w !! name = None →
  objective_function C cfg (<[name := coerced]> (benchmark_settings w)) (engine w)
    = (Ret result_dict, e) →
  result_dict !! "function_value" = Some loss →
  optimization_function_wrapper C cfg seed instance budget w
  = (Ret loss,
     mk_world (optimizer_settings w) (benchmark_settings w) e
       (calls w ++ [EvObjectiveFunction cfg (<[name := coerced]> (benchmark_settings w))])
       (clock w)).
Proof.
  intros Hdeclared Hparse Hname Hcoerce Hfree Hcall Hloss.
  unfold optimization_function_wrapper.
  step Hdeclared. step Hparse. step Hname. step Hcoerce.
  rewrite bind_run. cbv beta. unfold keyword_arguments. rewrite Hfree. cbv beta iota.
  rewrite bind_run, call_run. cbn [engine]. rewrite Hcall. cbn [fst snd].
  unfold lift, getitem. rewrite Hloss. reflexivity.
Qed.

Lemma optimization_function_wrapper_call_witness :
  let w := Fakes.a_world 3 2 in
  let cfg : Configuration := {[ "x" := VInt 1 ]} in
  optimization_function_wrapper Fakes.quiet cfg (VInt 0) VNone (VInt 9) w
  = (Ret (VInt 3),
     mk_world (optimizer_settings w) (benchmark_settings w) Fakes.warm_engine
       (calls w ++ [EvObjectiveFunction cfg (<["epoch" := VInt 9]> (benchmark_settings w))])
       (clock w)).
Proof.
  intros w cfg.
  apply (optimization_function_wrapper_call Fakes.quiet cfg (VInt 0) VNone (VInt 9) w
           (VStr "int") (VInt 9) (VInt 3)
           (λ v, match as_int v with Ret n => Ret (VInt n) | Raise x => Raise x end)
           "epoch" {[ "function_value" := VInt 3; "cost" := VInt 1 ]} Fakes.warm_engine);
    reflexivity.
Defined.

(** ** The settings are only read *)

Lemma same_settings_refl (w : world) : same_settings w w.
Proof. split; reflexivity. Qed.

Lemma same_settings_trans (w1 w2 w3 : world) :
  same_settings w1 w2 → same_settings w2 w3 → same_settings w1 w3.
Proof. intros [H1 H2] [H3 H4]. split; congruence. Qed.

Lemma preserves_ret {A} (a : A) : preserves_settings (mret a).
Proof. intros w. apply same_settings_refl. Qed.

Lemma preserves_raise {A} (x : exn) : preserves_settings (@raise A x).
Proof. intros w. apply same_settings_refl. Qed.

Lemma preserves_lift {A} (o : outcome A) : preserves_settings (lift o).
Proof. intros w. apply same_settings_refl. Qed.

Lemma preserves_attr {A} (f : engine_state → A) : preserves_settings (attr f).
Proof. intros w. apply same_settings_refl. Qed.

Lemma preserves_time : preserves_settings time.
Proof. intros w. apply same_settings_refl. Qed.

Lemma preserves_optimizer_setting (key : string) :
  preserves_settings (optimizer_setting key).
Proof. intros w. apply same_settings_refl. Qed.

Lemma preserves_benchmark_setting (key : string) :
  preserves_settings (benchmark_setting key).
Proof. intros w. apply same_settings_refl. Qed.

Lemma preserves_logger_info (msg : message) : preserves_settings (logger_info msg).
Proof. intros w. split; reflexivity. Qed.

Lemma preserves_call {A} (ev : event) (op : ext_op A) : preserves_settings (call ev op).
Proof. intros w. rewrite call_run. split; reflexivity. Qed.

Lemma preserves_bind {A B} (m : M A) (k : A → M B) :
  preserves_settings m → (∀ a, preserves_settings (k a)) → preserves_settings (m ≫= k).
Proof.
  intros Hm Hk w. rewrite bind_run. specialize (Hm w).
  destruct (m w) as [[a|x] w1]; simpl in Hm.
  - eapply same_settings_trans; [exact Hm | apply Hk].
  - exact Hm.
Qed.

Lemma preserves_try_except {A} (body handler : M A) :
  preserves_settings body → preserves_settings handler →
  preserves_settings (try_except_TimeoutException body handler).
Proof.
  intros Hb Hh w. unfold try_except_TimeoutException. specialize (Hb w).
  destruct (body w) as [[a|x] w1]; simpl in Hb; [exact Hb|].
  destruct x; try exact Hb.
  eapply same_settings_trans; [exact Hb | apply Hh].
Qed.

Lemma preserves_try_finally {A B} (body : M A) (final : M B) :
  preserves_settings body → preserves_settings final →
  preserves_settings (try_finally body final).
Proof.
  intros Hb Hf w. unfold try_finally. specialize (Hb w).
  destruct (body w) as [[a|x] w1]; simpl in Hb; specialize (Hf w1);
    destruct (final w1) as [[b|x'] w2]; simpl in *;
    eapply same_settings_trans; eauto.
Qed.

Lemma preserves_run_ticks {A} (steps : list (engine_state → engine_state))
    (op : ext_op A) : preserves_settings (run_ticks steps op).
Proof.
  induction steps as [|step rest IH]; intros w; simpl.
  - unfold finish_proc. destruct (op (engine w)). split; reflexivity.
  - eapply same_settings_trans; [|apply IH]. split; reflexivity.
Qed.

Lemma preserves_guard {A} (steps : list (engine_state → engine_state))
    (op : ext_op A) : ∀ seconds, preserves_settings (guard seconds steps op).
Proof.
  induction steps as [|step rest IH]; intros seconds w; simpl.
  - unfold finish_proc. destruct (op (engine w)). split; reflexivity.
  - destruct seconds as [|remaining]; simpl.
    + apply same_settings_refl.
    + eapply same_settings_trans; [|apply IH]. split; reflexivity.
Qed.

Create HintDb frame.
#[local] Hint Resolve preserves_ret preserves_raise preserves_lift preserves_attr
  preserves_time preserves_optimizer_setting preserves_benchmark_setting
  preserves_logger_info preserves_call preserves_run_ticks preserves_guard : frame.

(** Walks along the statements of a computation. *)
Ltac frame :=
  repeat first
    [ progress intros
    | solve [auto with frame]
    | apply preserves_bind
    | apply preserves_try_except
    | apply preserves_try_finally
    | match goal with
      | |- preserves_settings (let '(_, _) := ?p in _) => destruct p
      | |- preserves_settings (match ?r with Some _ => _ | None => _ end) => destruct r
      | |- preserves_settings (match ?i with HYPERBAND => _ | _ => _ end) => destruct i
      end
    | solve [intros w; apply same_settings_refl]
    | solve [intros w; split; reflexivity] ].

Section frames.

Variable C : collaborators.

Lemma preserves_fix_warmstart (todo : list iteration) :
  ∀ index, preserves_settings (fix_warmstart C index todo).
Proof.
  induction todo as [|it rest IH]; intros index; simpl; frame.
Qed.

Lemma preserves_BOHB_start (self : BOHBOptimizer) :
  preserves_settings (BOHB_start C self).
Proof. unfold BOHB_start. frame. Qed.

Lemma preserves_BOHB_optimize : preserves_settings (BOHB_optimize C).
Proof.
  unfold BOHB_optimize, BOHB_recover, master_run_call. frame.
  - intros w. eapply same_settings_trans; [|apply preserves_guard].
    split; reflexivity.
  - apply preserves_fix_warmstart.
Qed.

Lemma preserves_BOHB_teardown : preserves_settings (BOHB_teardown C).
Proof. unfold BOHB_teardown. frame. Qed.

Lemma preserves_BOHB_report (result : option Result) :
  preserves_settings (BOHB_report C result).
Proof. unfold BOHB_report. frame. Qed.

Lemma preserves_BOHBOptimizer_run (self : BOHBOptimizer) :
  preserves_settings (BOHBOptimizer_run C self).
Proof.
  unfold BOHBOptimizer_run.
  pose proof (preserves_BOHB_start self). pose proof preserves_BOHB_optimize.
  pose proof preserves_BOHB_teardown. pose proof preserves_BOHB_report.
  frame; auto.
Qed.

Lemma preserves_SMAC_start (self : SMACOptimizer) :
  preserves_settings (SMAC_start C self).
Proof. unfold SMAC_start. frame. Qed.

Lemma preserves_smac_optimize_call : preserves_settings (smac_optimize_call C).
Proof.
  intros w. unfold smac_optimize_call, run_proc.
  eapply same_settings_trans; [|apply preserves_run_ticks]. split; reflexivity.
Qed.

Lemma preserves_SMACOptimizer_run (self : SMACOptimizer) :
  preserves_settings (SMACOptimizer_run C self).
Proof.
  unfold SMACOptimizer_run, read_incumbent.
  pose proof (preserves_SMAC_start self). pose proof preserves_smac_optimize_call.
  frame; auto.
Qed.

Lemma preserves_optimization_function_wrapper (cfg : Configuration)
    (seed instance budget : value) :
  preserves_settings (optimization_function_wrapper C cfg seed instance budget).
Proof. unfold optimization_function_wrapper. frame. Qed.

End frames.

(** C9.  Whatever the collaborators do and however the run ends, the
    [optimizer_settings] and [benchmark_settings] mappings after [run] are
    the mappings before it, for both coordinators; the same holds for every
    call of the objective wrapper that the engine makes during the run. *)
Theorem run_leaves_settings_unchanged (C : collaborators) (w : world) :
  (∀ self : BOHBOptimizer,
     optimizer_settings (snd (BOHBOptimizer_run C self w)) = optimizer_settings w
     ∧ benchmark_settings (snd (BOHBOptimizer_run C self w)) = benchmark_settings w)
  ∧ (∀ self : SMACOptimizer,
     optimizer_settings (snd (SMACOptimizer_run C self w)) = optimizer_settings w
     ∧ benchmark_settings (snd (SMACOptimizer_run C self w)) = benchmark_settings w)
  ∧ (∀ cfg seed instance budget,
     optimizer_settings (snd (optimization_function_wrapper C cfg seed instance budget w))
     = optimizer_settings w
     ∧ benchmark_settings (snd (optimization_function_wrapper C cfg seed instance budget w))
       = benchmark_settings w).
Proof.
  split; [|split]; intros.
  - apply preserves_BOHBOptimizer_run.
  - apply preserves_SMACOptimizer_run.
  - apply preserves_optimization_function_wrapper.
Qed.

(** ** The model-based run *)

Lemma bind_inv {A B} (m : M A) (k : A → M B) (w w' : world) (b : B) :
  (m ≫= k) w = (Ret b, w') → ∃ a w1, m w = (Ret a, w1) ∧ k a w1 = (Ret b, w').
Proof.
  rewrite bind_run. destruct (m w) as [[a|x] w1]; intros H.
  - exists a, w1. split; [reflexivity | exact H].
  - discriminate H.
Qed.

(** C2.  Once the engine is set up, if [smac.optimize()] raises [x], then
    [smac.solver.incumbent] is read all the same, after the failed call and
    as the last thing the run does, and the run raises that same [x]. *)
Theorem SMACOptimizer_run_failure (C : collaborators) (self : SMACOptimizer)
    (w w1 : world) (x : exn) :
  SMAC_start C self w = (Ret (), w1) →
  fst (smac_optimize_call C w1) = Raise x →
  SMACOptimizer_run C self w
  = (Raise x, log_call EvSolverIncumbent (snd (smac_optimize_call C w1))).
Proof.
  intros Hstart Hfail. unfold SMACOptimizer_run.
  step Hstart.
  rewrite bind_run. unfold time at 1. cbv beta iota.
  rewrite bind_run. unfold try_finally, read_incumbent.
  destruct (smac_optimize_call C w1) as [[u|x'] w2]; simpl in Hfail.
  - discriminate Hfail.
  - injection Hfail as ->. reflexivity.
Qed.

Lemma SMACOptimizer_run_failure_witness :
  let C := Fakes.with_smac_optimize Fakes.search_failing Fakes.quiet in
  let r := SMACOptimizer_run C Fakes.smac (Fakes.a_world 3 2) in
  fst r = Raise (EngineError "target algorithm crashed")
  ∧ last (calls (snd r)) = Some EvSolverIncumbent
  ∧ count_calls (λ ev, match ev with EvSolverIncumbent => true | _ => false end)
      (calls (snd r)) = 1%nat.
Proof.
  intros C r. subst r.
  rewrite (SMACOptimizer_run_failure C Fakes.smac (Fakes.a_world 3 2)
             (snd (SMAC_start C Fakes.smac (Fakes.a_world 3 2)))
             (EngineError "target algorithm crashed"));
    [ | vm_compute; reflexivity | vm_compute; reflexivity ].
  vm_compute. repeat split.
Defined.

(** ** What the runs return *)

Lemma optimizer_setting_inv (key : string) (v : value) (w w' : world) :
  optimizer_setting key w = (Ret v, w') → optimizer_settings w !! key = Some v ∧ w' = w.
Proof.
  unfold optimizer_setting, getitem. destruct (optimizer_settings w !! key); intros H.
  - injection H as -> ->. split; reflexivity.
  - discriminate H.
Qed.

Lemma preserved {A} (m : M A) (w w' : world) (o : outcome A) :
  preserves_settings m → m w = (o, w') → same_settings w w'.
Proof. intros Hm H. specialize (Hm w). rewrite H in Hm. exact Hm. Qed.

(** C8, as amended.  A run of the bandit coordinator that returns, returns
    the [output_dir] entry of the optimizer settings; a run of the model-based
    coordinator that returns, returns [Path(smac.output_dir)], the directory
    the engine reports as its own. *)
Theorem run_returns_output_location (C : collaborators) (w w' : world) (v : value) :
  (∀ self : BOHBOptimizer,
     BOHBOptimizer_run C self w = (Ret v, w') →
     optimizer_settings w !! "output_dir" = Some v)
  ∧ (∀ self : SMACOptimizer,
     SMACOptimizer_run C self w = (Ret v, w') →
     v = Path (smac_output_dir (engine w'))).
Proof.
  split; intros self Hrun.
  - unfold BOHBOptimizer_run in Hrun.
    apply bind_inv in Hrun as (? & w1 & Hstart & Hrun).
    apply bind_inv in Hrun as (result & w2 & Hopt & Hrun).
    apply bind_inv in Hrun as (? & w3 & Hdown & Hrun).
    apply bind_inv in Hrun as (? & w4 & Hreport & Hrun).
    apply optimizer_setting_inv in Hrun as [Hout ->].
    apply (preserved _ _ _ _ (preserves_BOHB_start C self)) in Hstart as [H1 _].
    apply (preserved _ _ _ _ (preserves_BOHB_optimize C)) in Hopt as [H2 _].
    apply (preserved _ _ _ _ (preserves_BOHB_teardown C)) in Hdown as [H3 _].
    apply (preserved _ _ _ _ (preserves_BOHB_report C result)) in Hreport as [H4 _].
    rewrite <- H1, <- H2, <- H3, <- H4. exact Hout.
  - unfold SMACOptimizer_run in Hrun.
    apply bind_inv in Hrun as (? & w1 & Hstart & Hrun).
    apply bind_inv in Hrun as (start_time & w2 & _ & Hrun).
    apply bind_inv in Hrun as ([u incumbent] & w3 & _ & Hrun).
    apply bind_inv in Hrun as (end_time & w4 & _ & Hrun).
    apply bind_inv in Hrun as (? & w5 & _ & Hrun).
    apply bind_inv in Hrun as (output_dir & w6 & Hattr & Hrun).
    unfold attr in Hattr. injection Hattr as <- ->.
    injection Hrun as <- <-. reflexivity.
Qed.

Lemma run_returns_output_location_witness :
  optimizer_settings (Fakes.a_world 3 5) !! "output_dir" = Some (VPath "out")
  ∧ VPath "out/run_1"
    = Path (smac_output_dir
              (engine (snd (SMACOptimizer_run Fakes.quiet Fakes.smac (Fakes.a_world 3 5))))).
Proof.
  split.
  - apply (proj1 (run_returns_output_location Fakes.quiet (Fakes.a_world 3 5)
                    (snd (BOHBOptimizer_run Fakes.quiet Fakes.bohb (Fakes.a_world 3 5)))
                    (VPath "out")) Fakes.bohb).
    vm_compute. reflexivity.
  - apply (proj2 (run_returns_output_location Fakes.quiet (Fakes.a_world 3 5)
                    (snd (SMACOptimizer_run Fakes.quiet Fakes.smac (Fakes.a_world 3 5)))
                    (VPath "out/run_1")) Fakes.smac).
    vm_compute. reflexivity.
Defined.

(** C8 as stated fails for the model-based coordinator: with an engine that
    keeps the run log of seed 1 in [<output_dir>/run_1], the run configured
    with the output directory [out] returns [out/run_1]. *)
Lemma SMACOptimizer_run_returns_run_directory :
  ¬ (∀ (C : collaborators) (self : SMACOptimizer) (w w' : world) (v : value),
       SMACOptimizer_run C self w = (Ret v, w') →
       ∃ configured, optimizer_settings w !! "output_dir" = Some configured
                     ∧ py_str v = py_str configured).
Proof.
  intros H.
  destruct (H Fakes.quiet Fakes.smac (Fakes.a_world 3 2)
              (snd (SMACOptimizer_run Fakes.quiet Fakes.smac (Fakes.a_world 3 2)))
              (VPath "out/run_1")) as (configured & Hlookup & Hsame).
  - vm_compute. reflexivity.
  - vm_compute in Hlookup. injection Hlookup as <-. discriminate Hsame.
Qed.

(** ** The bandit run under the deadline *)

Lemma run_ticks_calls {A} (steps : list (engine_state → engine_state)) (op : ext_op A) :
  ∀ w, calls (snd (run_ticks steps op w)) = calls w.
Proof.
  induction steps as [|step rest IH]; intros w; simpl.
  - unfold finish_proc. destruct (op (engine w)). reflexivity.
  - rewrite IH. reflexivity.
Qed.

Lemma guard_calls {A} (steps : list (engine_state → engine_state)) (op : ext_op A) :
  ∀ seconds w, calls (snd (guard seconds steps op w)) = calls w.
Proof.
  induction steps as [|step rest IH]; intros seconds w; simpl.
  - unfold finish_proc. destruct (op (engine w)). reflexivity.
  - destruct seconds as [|remaining]; simpl; [reflexivity|].
    rewrite IH. reflexivity.
Qed.

Section bandit.

Variable C : collaborators.

Lemma master_run_call_expired (seconds : nat) (n : value) (w : world) :
  (seconds < duration (master_run C n (engine w)))%nat →
  fst (master_run_call C seconds n w) = Raise TimeoutException
  ∧ calls (snd (master_run_call C seconds n w)) = calls w ++ [EvMasterRun n]
  ∧ clock (snd (master_run_call C seconds n w)) = (clock w + seconds)%nat.
Proof.
  intros Hlate. unfold master_run_call, time_limit. cbv zeta.
  destruct (guard_expired (ticks (master_run C n (engine (log_call (EvMasterRun n) w))))
              (finish (master_run C n (engine (log_call (EvMasterRun n) w))))
              seconds (log_call (EvMasterRun n) w) Hlate) as [Hraise Hclock].
  split; [exact Hraise|]. split; [|exact Hclock].
  rewrite guard_calls. reflexivity.
Qed.

(** The loop over the warm-start iterations when every [fix_timestamps]
    returns: each entry of the engine's list is replaced by its rewritten
    object, in order, [done] being the entries already rewritten. *)
Lemma fix_warmstart_run (time_ref : Z) (todo fixed : list iteration) :
  Forall2 (λ it it', fix_timestamps C time_ref it = Ret it') todo fixed →
  ∀ (done : list iteration) (w : world),
    master_time_ref (engine w) = time_ref →
    master_warmstart_iteration (engine w) = done ++ todo →
    fix_warmstart C (length done) todo w
    = (Ret (),
       mk_world (optimizer_settings w) (benchmark_settings w)
         (set_warmstart (λ _, done ++ fixed) (engine w))
         (calls w ++ ((λ i, EvFixTimestamps i time_ref) <$> seq (length done) (length todo)))
         (clock w)).
Proof.
  induction 1 as [|it it' rest fixed Hfix Hrest IH]; intros done w Href Hws.
  - destruct w as [os bs [its ws tref cfg inc out] log now]. cbn in *.
    subst ws. rewrite !app_nil_r. reflexivity.
  - cbn [fix_warmstart].
    rewrite bind_run. unfold attr at 1. cbv beta iota.
    rewrite bind_run, call_run, Href, Hfix. cbn [fst snd].
    replace (S (length done)) with (length (done ++ [it']))
      by (rewrite length_app; simpl; lia).
    rewrite IH.
    + destruct w as [os bs [its ws tref cfg inc out] log now]. cbn.
      rewrite <- !app_assoc. cbn. rewrite length_app, Nat.add_1_r. reflexivity.
    + destruct w as [os bs [its ws tref cfg inc out] log now]. exact Href.
    + destruct w as [os bs [its ws tref cfg inc out] log now]. cbn in *. subst ws.
      pose proof (insert_app_r done (it :: rest) 0 it') as Hr.
      rewrite Nat.add_0_r in Hr. rewrite Hr, <- app_assoc. reflexivity.
Qed.

(** What the handler of the deadline does, at the world [w] the deadline left
    behind, when its calls into the engine library return. *)
Lemma BOHB_recover_run (w : world) (fixed : list iteration) (result : Result)
    (e : engine_state) :
  let time_ref := master_time_ref (engine w) in
  let HB_iteration_data := (data <$> master_iterations (engine w)) ++ (data <$> fixed) in
  Forall2 (λ it it', fix_timestamps C time_ref it = Ret it')
    (master_warmstart_iteration (engine w)) fixed →
  hpres_Result C HB_iteration_data (master_config (engine w))
    (set_warmstart (λ _, fixed) (engine w)) = (Ret result, e) →
  BOHB_recover C w
  = (Ret (Some result),
     mk_world (optimizer_settings w) (benchmark_settings w) e
       (calls w
        ++ ((λ i, EvFixTimestamps i time_ref)
              <$> seq 0 (length (master_warmstart_iteration (engine w))))
        ++ [EvResult HB_iteration_data (master_config (engine w));
            EvLoggerInfo WALLCLOCK_LIMIT_REACHED])
       (clock w)).
Proof.
  intros time_ref HB_iteration_data Hfix Hresult. unfold BOHB_recover.
  rewrite bind_run. unfold attr at 1. cbv beta iota.
  pose proof (fix_warmstart_run time_ref _ _ Hfix [] w eq_refl eq_refl) as Hloop.
  cbn [length app] in Hloop.
  rewrite bind_run, Hloop. cbv beta iota.
  subst time_ref HB_iteration_data.
  destruct w as [os bs [its ws tref cfg inc out] log now].
  unfold mbind, M_bind, bind, attr, call, logger_info, log_call, set_engine,
    set_warmstart, mret, M_ret, ret, deepcopy in *.
  cbn in *. change (λ it : iteration, data it) with data.
  rewrite Hresult. cbn. rewrite <- !app_assoc. reflexivity.
Qed.

End bandit.





(** ** Teardown of the bandit run *)

Lemma count_calls_snoc (kind : event → bool) (log : list event) (ev : event) :
  count_calls kind (log ++ [ev])
  = (count_calls kind log + (if kind ev then 1 else 0))%nat.
Proof.
  unfold count_calls. rewrite filter_app, length_app. f_equal.
  destruct (kind ev) eqn:E.
  - rewrite filter_cons_True by exact E. reflexivity.
  - rewrite filter_cons_False by (rewrite E; discriminate). reflexivity.
Qed.

Section shutdown_calls.

Variable kind : event → bool.
Hypothesis kind_shutdown :
  ∀ ev, kind ev = true → is_master_shutdown ev = true ∨ is_ns_shutdown ev = true.

Lemma adds_no_unchanged {A} (m : M A) :
  (∀ w, calls (snd (m w)) = calls w) → adds_no kind m.
Proof. intros H w. rewrite H. reflexivity. Qed.

Lemma adds_no_call {A} (ev : event) (op : ext_op A) :
  is_master_shutdown ev = false → is_ns_shutdown ev = false → adds_no kind (call ev op).
Proof.
  intros Hm Hn w. rewrite call_run. cbn [snd set_engine log_call calls].
  rewrite count_calls_snoc. destruct (kind ev) eqn:E; [|lia].
  apply kind_shutdown in E as [E|E]; congruence.
Qed.

Lemma adds_no_logged {A} (ev : event) (a : A) :
  is_master_shutdown ev = false → is_ns_shutdown ev = false →
  adds_no kind (λ w, (Ret a, log_call ev w)).
Proof.
  intros Hm Hn w. cbn [snd log_call calls].
  rewrite count_calls_snoc. destruct (kind ev) eqn:E; [|lia].
  apply kind_shutdown in E as [E|E]; congruence.
Qed.

Lemma adds_no_bind {A B} (m : M A) (k : A → M B) :
  adds_no kind m → (∀ a, adds_no kind (k a)) → adds_no kind (m ≫= k).
Proof.
  intros Hm Hk w. rewrite bind_run. specialize (Hm w).
  destruct (m w) as [[a|x] w1]; simpl in Hm.
  - rewrite Hk. exact Hm.
  - exact Hm.
Qed.

Lemma adds_no_try_except {A} (body handler : M A) :
  adds_no kind body → adds_no kind handler →
  adds_no kind (try_except_TimeoutException body handler).
Proof.
  intros Hb Hh w. unfold try_except_TimeoutException. specialize (Hb w).
  destruct (body w) as [[a|x] w1]; simpl in Hb; [exact Hb|].
  destruct x; try exact Hb. rewrite Hh. exact Hb.
Qed.

Variable C : collaborators.

Ltac quiet :=
  repeat first
    [ progress intros
    | assumption
    | apply adds_no_bind
    | apply adds_no_try_except
    | apply adds_no_call; reflexivity
    | apply (adds_no_logged (A := unit)); reflexivity
    | match goal with
      | |- adds_no _ (let '(_, _) := ?p in _) => destruct p
      | |- adds_no _ (match ?r with Some _ => _ | None => _ end) => destruct r
      end
    | solve [apply adds_no_unchanged; intros; reflexivity] ].

Lemma adds_no_fix_warmstart (todo : list iteration) :
  ∀ index, adds_no kind (fix_warmstart C index todo).
Proof.
  induction todo as [|it rest IH]; intros index; cbn [fix_warmstart]; quiet. apply IH.
Qed.

Lemma adds_no_BOHB_start (self : BOHBOptimizer) : adds_no kind (BOHB_start C self).
Proof. unfold BOHB_start. quiet. Qed.

Lemma adds_no_master_run_call (seconds : nat) (n : value) :
  adds_no kind (master_run_call C seconds n).
Proof.
  intros w. unfold master_run_call, time_limit. cbv zeta.
  rewrite guard_calls. cbn [log_call calls]. rewrite count_calls_snoc.
  destruct (kind (EvMasterRun n)) eqn:E; [|lia].
  apply kind_shutdown in E as [E|E]; discriminate E.
Qed.

Lemma adds_no_BOHB_optimize : adds_no kind (BOHB_optimize C).
Proof.
  unfold BOHB_optimize, BOHB_recover, logger_info.
  pose proof adds_no_master_run_call. pose proof adds_no_fix_warmstart.
  quiet; auto.
Qed.

Lemma adds_no_BOHB_report (result : option Result) : adds_no kind (BOHB_report C result).
Proof. unfold BOHB_report, logger_info. quiet. Qed.

End shutdown_calls.

(** A teardown that goes through has called both shutdowns, once each. *)
Lemma BOHB_teardown_calls (C : collaborators) (w w' : world) :
  BOHB_teardown C w = (Ret (), w') →
  calls w' = calls w ++ [EvMasterShutdown true; EvNsShutdown].
Proof.
  unfold BOHB_teardown. intros H.
  apply bind_inv in H as ([] & w1 & Hmaster & Hns).
  rewrite call_run in Hmaster, Hns.
  injection Hmaster as _ <-. injection Hns as _ <-.
  cbn. rewrite <- app_assoc. reflexivity.
Qed.

(** X2.  Every run of the bandit coordinator that returns, whether the loop
    completed or the deadline fired, has called [master.shutdown] and
    [ns.shutdown] exactly once. *)
Lemma BOHBOptimizer_run_teardown_once (C : collaborators) (self : BOHBOptimizer)
    (w w' : world) (v : value) :
  BOHBOptimizer_run C self w = (Ret v, w') →
  count_calls is_master_shutdown (calls w') = S (count_calls is_master_shutdown (calls w))
  ∧ count_calls is_ns_shutdown (calls w') = S (count_calls is_ns_shutdown (calls w)).
Proof.
  intros Hrun. unfold BOHBOptimizer_run in Hrun.
  apply bind_inv in Hrun as (? & w1 & Hstart & Hrun).
  apply bind_inv in Hrun as (result & w2 & Hopt & Hrun).
  apply bind_inv in Hrun as ([] & w3 & Hdown & Hrun).
  apply bind_inv in Hrun as (? & w4 & Hreport & Hrun).
  apply optimizer_setting_inv in Hrun as [_ ->].
  apply BOHB_teardown_calls in Hdown.
  split.
  - pose proof (adds_no_BOHB_start is_master_shutdown ltac:(auto) C self w) as H1.
    pose proof (adds_no_BOHB_optimize is_master_shutdown ltac:(auto) C w1) as H2.
    pose proof (adds_no_BOHB_report is_master_shutdown ltac:(auto) C result w3) as H4.
    rewrite Hstart in H1. rewrite Hopt in H2. rewrite Hreport in H4. cbn [snd] in *.
    rewrite H4, Hdown.
    change [EvMasterShutdown true; EvNsShutdown]
      with ([EvMasterShutdown true] ++ [EvNsShutdown]).
    rewrite app_assoc, !count_calls_snoc. cbn. lia.
  - pose proof (adds_no_BOHB_start is_ns_shutdown ltac:(auto) C self w) as H1.
    pose proof (adds_no_BOHB_optimize is_ns_shutdown ltac:(auto) C w1) as H2.
    pose proof (adds_no_BOHB_report is_ns_shutdown ltac:(auto) C result w3) as H4.
    rewrite Hstart in H1. rewrite Hopt in H2. rewrite Hreport in H4. cbn [snd] in *.
    rewrite H4, Hdown.
    change [EvMasterShutdown true; EvNsShutdown]
      with ([EvMasterShutdown true] ++ [EvNsShutdown]).
    rewrite app_assoc, !count_calls_snoc. cbn. lia.
Qed.

(** C1 fails on the code: the teardown is not under a [finally].  When
    [master.run] dies of anything but the deadline, [run] raises without a
    single call to [master.shutdown] or [ns.shutdown]; when [master.shutdown]
    itself raises after a completed loop, [ns.shutdown] is never called and
    the exception of the teardown is all the caller sees of the run. *)
Theorem BOHBOptimizer_run_teardown_skipped :
  (let C := Fakes.with_master_run Fakes.crash_after_a_second Fakes.quiet in
   let r := BOHBOptimizer_run C Fakes.bohb (Fakes.a_world 3 2) in
   fst r = Raise (EngineError "worker died")
   ∧ count_calls is_master_shutdown (calls (snd r)) = 0%nat
   ∧ count_calls is_ns_shutdown (calls (snd r)) = 0%nat)
  ∧ (let C := Fakes.with_master_shutdown
                (λ _, Fakes.raises (EngineError "worker unreachable")) Fakes.quiet in
     let r := BOHBOptimizer_run C Fakes.bohb (Fakes.a_world 3 2) in
     fst (BOHB_optimize C (snd (BOHB_start C Fakes.bohb (Fakes.a_world 3 2))))
     = Ret (Some (Fakes.result_of
                    (Fakes.add_iteration (Fakes.add_iteration Fakes.warm_engine))))
     ∧ fst r = Raise (EngineError "worker unreachable")
     ∧ count_calls is_master_shutdown (calls (snd r)) = 1%nat
     ∧ count_calls is_ns_shutdown (calls (snd r)) = 0%nat).
Proof. vm_compute. repeat split. Qed.


(** * Further properties of the coordinators *)

(** ** Inversion of single statements *)

Lemma call_inv {A} (ev : event) (op : ext_op A) (w w' : world) (a : A) :
  call ev op w = (Ret a, w') →
  ∃ e, op (engine w) = (Ret a, e) ∧ w' = set_engine e (log_call ev w).
Proof.
  rewrite call_run. intros H. injection H as Ha Hw.
  exists (snd (op (engine w))). split; [|symmetry; exact Hw].
  destruct (op (engine w)) as [o e]. simpl in *. subst o. reflexivity.
Qed.

Lemma lift_inv {A} (o : outcome A) (w w' : world) (a : A) :
  lift o w = (Ret a, w') → o = Ret a ∧ w' = w.
Proof. unfold lift. intros H. injection H as -> ->. split; reflexivity. Qed.

Lemma setting_missing (key : string) (w : world) :
  optimizer_settings w !! key = None →
  optimizer_setting key w = (Raise (KeyError key), w).
Proof. intros H. unfold optimizer_setting, getitem. rewrite H. reflexivity. Qed.

(** ** The paths of the bandit run *)

Section bandit_paths.

Variable C : collaborators.
Variable self : BOHBOptimizer.

(** What the [try] statement does when [master.run] ends within the
    deadline: the guard is transparent. *)
Lemma BOHB_optimize_in_time (w1 : world) (limit : Z) (n : value) :
  optimizer_settings w1 !! "time_limit_in_s" = Some (VInt limit) →
  optimizer_settings w1 !! "num_iterations" = Some n →
  (duration (master_run C n (engine w1)) ≤ Z.to_nat limit)%nat →
  BOHB_optimize C w1
  = match run_proc (master_run C n (engine w1)) (log_call (EvMasterRun n) w1) with
    | (Raise TimeoutException, w2) => BOHB_recover C w2
    | r => r
    end.
Proof.
  intros Hlimit Hn Hdur. unfold BOHB_optimize, try_except_TimeoutException.
  step Hlimit. step (eq_refl : as_seconds (VInt limit) = Ret (Z.to_nat limit)).
  step Hn. unfold master_run_call, time_limit. cbv zeta.
  rewrite guard_in_time by exact Hdur. reflexivity.
Qed.

Lemma BOHB_start_output_dir (w w1 : world) :
  BOHB_start C self w = (Ret (), w1) →
  ∃ output_dir, optimizer_settings w !! "output_dir" = Some output_dir.
Proof.
  intros Hstart. unfold BOHB_start in Hstart.
  apply bind_inv in Hstart as (output_dir & w0 & Hout & _).
  apply optimizer_setting_inv in Hout as [Hout _]. eauto.
Qed.

End bandit_paths.

(** X1.  The loop completes within the deadline: once the engine is set up,
    if [master.run] needs at most [limit] seconds and returns [result], then
    the [try] statement yields that very [result] in the state [master.run]
    left, the log gains the [master.run] call and nothing else (no
    [fix_timestamps], no wall-clock message), and, when teardown and report go
    through, [run] returns the output directory. *)
Theorem BOHBOptimizer_run_completed (C : collaborators) (self : BOHBOptimizer)
    (w w1 w2 w3 w4 : world) (limit : Z) (n : value) (result : option Result) :
  BOHB_start C self w = (Ret (), w1) →
  optimizer_settings w1 !! "time_limit_in_s" = Some (VInt limit) →
  optimizer_settings w1 !! "num_iterations" = Some n →
  (duration (master_run C n (engine w1)) ≤ Z.to_nat limit)%nat →
  run_proc (master_run C n (engine w1)) (log_call (EvMasterRun n) w1) = (Ret result, w2) →
  BOHB_teardown C w2 = (Ret (), w3) →
  BOHB_report C result w3 = (Ret (), w4) →
  BOHB_optimize C w1 = (Ret result, w2)
  ∧ calls w2 = calls w1 ++ [EvMasterRun n]
  ∧ ∃ output_dir,
      optimizer_settings w !! "output_dir" = Some output_dir
      ∧ BOHBOptimizer_run C self w = (Ret output_dir, w4).
Proof.
  intros Hstart Hlimit Hn Hdur Hrun Hdown Hreport.
  assert (BOHB_optimize C w1 = (Ret result, w2)) as Hopt.
  { rewrite (BOHB_optimize_in_time C w1 limit n Hlimit Hn Hdur), Hrun. reflexivity. }
  split; [exact Hopt|]. split.
  - pose proof (run_ticks_calls (ticks (master_run C n (engine w1)))
                  (finish (master_run C n (engine w1))) (log_call (EvMasterRun n) w1)) as Hlog.
    unfold run_proc in Hrun. rewrite Hrun in Hlog. exact Hlog.
  - destruct (BOHB_start_output_dir C self w w1 Hstart) as [output_dir Hout].
    exists output_dir. split; [exact Hout|].
    unfold BOHBOptimizer_run.
    step Hstart. step Hopt. step Hdown. step Hreport.
    apply setting_run.
    apply (preserved _ _ _ _ (preserves_BOHB_start C self)) in Hstart as [H1 _].
    apply (preserved _ _ _ _ (preserves_BOHB_optimize C)) in Hopt as [H2 _].
    apply (preserved _ _ _ _ (preserves_BOHB_teardown C)) in Hdown as [H3 _].
    apply (preserved _ _ _ _ (preserves_BOHB_report C result)) in Hreport as [H4 _].
    rewrite H4, H3, H2, H1. exact Hout.
Qed.

Lemma BOHBOptimizer_run_completed_witness :
  let w := Fakes.a_world 3 2 in
  let w1 := snd (BOHB_start Fakes.quiet Fakes.bohb w) in
  ∃ result w2 output_dir w4,
    BOHB_optimize Fakes.quiet w1 = (Ret result, w2)
    ∧ calls w2 = calls w1 ++ [EvMasterRun (VInt 2)]
    ∧ optimizer_settings w !! "output_dir" = Some output_dir
    ∧ BOHBOptimizer_run Fakes.quiet Fakes.bohb w = (Ret output_dir, w4).
Proof.
  intros w w1.
  set (r := run_proc (master_run Fakes.quiet (VInt 2) (engine w1))
              (log_call (EvMasterRun (VInt 2)) w1)).
  set (w3 := snd (BOHB_teardown Fakes.quiet (snd r))).
  set (w4 := snd (BOHBOptimizer_run Fakes.quiet Fakes.bohb w)).
  destruct (BOHBOptimizer_run_completed Fakes.quiet Fakes.bohb w w1 (snd r) w3 w4 3
              (VInt 2) (Some (Fakes.result_of (engine (snd r)))))
    as (Hopt & Hcalls & output_dir & Hout & Hrun).
  - vm_compute. reflexivity.
  - vm_compute. reflexivity.
  - vm_compute. reflexivity.
  - vm_compute. lia.
  - vm_compute. reflexivity.
  - vm_compute. reflexivity.
  - vm_compute. reflexivity.
  - exists (Some (Fakes.result_of (engine (snd r)))), (snd r), output_dir, w4.
    split; [exact Hopt|]. split; [exact Hcalls|]. split; [exact Hout | exact Hrun].
Defined.

(** X4.  An engine failure is not a deadline: once the engine is set up, if
    [master.run] raises, within the deadline, an exception [x] other than
    [TimeoutException], then [run] raises [x] from the state [master.run]
    left; the [master.run] call is the last one logged, so neither shutdown
    is called and nothing is reported. *)
Theorem BOHBOptimizer_run_engine_failure (C : collaborators) (self : BOHBOptimizer)
    (w w1 w2 : world) (limit : Z) (n : value) (x : exn) :
  BOHB_start C self w = (Ret (), w1) →
  optimizer_settings w1 !! "time_limit_in_s" = Some (VInt limit) →
  optimizer_settings w1 !! "num_iterations" = Some n →
  (duration (master_run C n (engine w1)) ≤ Z.to_nat limit)%nat →
  run_proc (master_run C n (engine w1)) (log_call (EvMasterRun n) w1) = (Raise x, w2) →
  x ≠ TimeoutException →
  BOHBOptimizer_run C self w = (Raise x, w2)
  ∧ calls w2 = calls w1 ++ [EvMasterRun n].
Proof.
  intros Hstart Hlimit Hn Hdur Hrun Hx.
  assert (BOHB_optimize C w1 = (Raise x, w2)) as Hopt.
  { rewrite (BOHB_optimize_in_time C w1 limit n Hlimit Hn Hdur), Hrun.
    destruct x; congruence. }
  split.
  - unfold BOHBOptimizer_run. step Hstart. apply bind_raise. exact Hopt.
  - pose proof (run_ticks_calls (ticks (master_run C n (engine w1)))
                  (finish (master_run C n (engine w1))) (log_call (EvMasterRun n) w1)) as Hlog.
    unfold run_proc in Hrun. rewrite Hrun in Hlog. exact Hlog.
Qed.

Lemma BOHBOptimizer_run_engine_failure_witness :
  let C := Fakes.with_master_run Fakes.crash_after_a_second Fakes.quiet in
  let w := Fakes.a_world 3 2 in
  let w1 := snd (BOHB_start C Fakes.bohb w) in
  ∃ w2, BOHBOptimizer_run C Fakes.bohb w = (Raise (EngineError "worker died"), w2)
        ∧ calls w2 = calls w1 ++ [EvMasterRun (VInt 2)].
Proof.
  intros C w w1.
  set (r := run_proc (master_run C (VInt 2) (engine w1)) (log_call (EvMasterRun (VInt 2)) w1)).
  exists (snd r).
  apply (BOHBOptimizer_run_engine_failure C Fakes.bohb w w1 (snd r) 3 (VInt 2)
           (EngineError "worker died")).
  - vm_compute. reflexivity.
  - vm_compute. reflexivity.
  - vm_compute. reflexivity.
  - vm_compute. lia.
  - vm_compute. reflexivity.
  - discriminate.
Defined.

(** X5.  A failing teardown: once the [try] statement has yielded a result,
    if [master.shutdown] raises [x] then [run] raises [x] right after that
    call, so [ns.shutdown] is not called and nothing is reported; and if
    [master.shutdown] returns but [ns.shutdown] raises [x], then [run] raises
    [x] right after the [ns.shutdown] call, again with nothing reported. *)
Theorem BOHBOptimizer_run_shutdown_failure (C : collaborators) (self : BOHBOptimizer)
    (w w1 w2 : world) (result : option Result) (x : exn) :
  BOHB_start C self w = (Ret (), w1) →
  BOHB_optimize C w1 = (Ret result, w2) →
  (∀ e, master_shutdown C true (engine w2) = (Raise x, e) →
     BOHBOptimizer_run C self w
     = (Raise x, set_engine e (log_call (EvMasterShutdown true) w2)))
  ∧ (∀ e e', master_shutdown C true (engine w2) = (Ret (), e) →
       ns_shutdown C e = (Raise x, e') →
       BOHBOptimizer_run C self w
       = (Raise x, set_engine e' (log_call EvNsShutdown
                      (set_engine e (log_call (EvMasterShutdown true) w2))))).
Proof.
  intros Hstart Hopt. split.
  - intros e Hmaster. unfold BOHBOptimizer_run. step Hstart. step Hopt.
    apply bind_raise. unfold BOHB_teardown. apply bind_raise.
    rewrite call_run, Hmaster. reflexivity.
  - intros e e' Hmaster Hns. unfold BOHBOptimizer_run. step Hstart. step Hopt.
    apply bind_raise. unfold BOHB_teardown.
    erewrite bind_ret by (rewrite call_run, Hmaster; reflexivity).
    rewrite call_run. cbn [engine set_engine log_call fst snd]. rewrite Hns. reflexivity.
Qed.

Lemma BOHBOptimizer_run_shutdown_failure_witness :
  let w := Fakes.a_world 3 2 in
  let C1 := Fakes.with_master_shutdown
              (λ _, Fakes.raises (EngineError "worker unreachable")) Fakes.quiet in
  let C2 := Fakes.with_ns_shutdown (Fakes.raises (EngineError "name server gone"))
              Fakes.quiet in
  (fst (BOHBOptimizer_run C1 Fakes.bohb w) = Raise (EngineError "worker unreachable")
   ∧ count_calls is_ns_shutdown (calls (snd (BOHBOptimizer_run C1 Fakes.bohb w))) = 0%nat)
  ∧ fst (BOHBOptimizer_run C2 Fakes.bohb w) = Raise (EngineError "name server gone").
Proof.
  intros w C1 C2. split.
  - set (w1 := snd (BOHB_start C1 Fakes.bohb w)).
    set (o := BOHB_optimize C1 w1).
    rewrite (proj1 (BOHBOptimizer_run_shutdown_failure C1 Fakes.bohb w w1 (snd o)
                      (Some (Fakes.result_of (engine (snd o))))
                      (EngineError "worker unreachable")
                      ltac:(vm_compute; reflexivity) ltac:(vm_compute; reflexivity))
               (engine (snd o)) ltac:(vm_compute; reflexivity)).
    vm_compute. split; reflexivity.
  - set (w1 := snd (BOHB_start C2 Fakes.bohb w)).
    set (o := BOHB_optimize C2 w1).
    rewrite (proj2 (BOHBOptimizer_run_shutdown_failure C2 Fakes.bohb w w1 (snd o)
                      (Some (Fakes.result_of (engine (snd o))))
                      (EngineError "name server gone")
                      ltac:(vm_compute; reflexivity) ltac:(vm_compute; reflexivity))
               (engine (snd o)) (engine (snd o))
               ltac:(vm_compute; reflexivity) ltac:(vm_compute; reflexivity)).
    reflexivity.
Defined.

Lemma BOHBOptimizer_run_teardown_once_witness :
  let w := Fakes.a_world 3 5 in
  let w' := snd (BOHBOptimizer_run Fakes.quiet Fakes.bohb w) in
  count_calls is_master_shutdown (calls w') = 1%nat
  ∧ count_calls is_ns_shutdown (calls w') = 1%nat.
Proof.
  intros w w'.
  apply (BOHBOptimizer_run_teardown_once Fakes.quiet Fakes.bohb w w' (VPath "out")).
  vm_compute. reflexivity.
Defined.

(** X7.  The deadline and the iteration count are looked up only inside the
    [try] statement: once name server, worker and engine are set up, a
    missing [time_limit_in_s], or a missing [num_iterations] beside an integer
    limit, makes [run] raise the [KeyError] in the very state the set-up
    left, with no shutdown called. *)
Theorem BOHBOptimizer_run_missing_limit (C : collaborators) (self : BOHBOptimizer)
    (w w1 : world) :
  BOHB_start C self w = (Ret (), w1) →
  (optimizer_settings w !! "time_limit_in_s" = None →
     BOHBOptimizer_run C self w = (Raise (KeyError "time_limit_in_s"), w1))
  ∧ (∀ limit, optimizer_settings w !! "time_limit_in_s" = Some (VInt limit) →
       optimizer_settings w !! "num_iterations" = None →
       BOHBOptimizer_run C self w = (Raise (KeyError "num_iterations"), w1)).
Proof.
  intros Hstart.
  pose proof (preserved _ _ _ _ (preserves_BOHB_start C self) Hstart) as [Hsame _].
  split.
  - intros Hmissing. unfold BOHBOptimizer_run. step Hstart. apply bind_raise.
    unfold BOHB_optimize, try_except_TimeoutException.
    rewrite <- Hsame in Hmissing.
    rewrite (bind_raise _ _ _ _ _ (setting_missing _ _ Hmissing)). reflexivity.
  - intros limit Hlimit Hmissing. unfold BOHBOptimizer_run. step Hstart. apply bind_raise.
    unfold BOHB_optimize, try_except_TimeoutException.
    rewrite <- Hsame in Hlimit, Hmissing.
    step Hlimit. step (eq_refl : as_seconds (VInt limit) = Ret (Z.to_nat limit)).
    rewrite (bind_raise _ _ _ _ _ (setting_missing _ _ Hmissing)). reflexivity.
Qed.

Lemma BOHBOptimizer_run_missing_limit_witness :
  (let w := Fakes.world_without "time_limit_in_s" in
   BOHBOptimizer_run Fakes.quiet Fakes.bohb w
   = (Raise (KeyError "time_limit_in_s"), snd (BOHB_start Fakes.quiet Fakes.bohb w)))
  ∧ (let w := Fakes.world_without "num_iterations" in
     BOHBOptimizer_run Fakes.quiet Fakes.bohb w
     = (Raise (KeyError "num_iterations"), snd (BOHB_start Fakes.quiet Fakes.bohb w))).
Proof.
  split; intros w.
  - apply (proj1 (BOHBOptimizer_run_missing_limit Fakes.quiet Fakes.bohb w
                    (snd (BOHB_start Fakes.quiet Fakes.bohb w))
                    ltac:(vm_compute; reflexivity))).
    vm_compute. reflexivity.
  - apply (proj2 (BOHBOptimizer_run_missing_limit Fakes.quiet Fakes.bohb w
                    (snd (BOHB_start Fakes.quiet Fakes.bohb w))
                    ltac:(vm_compute; reflexivity)) 3).
    + vm_compute. reflexivity.
    + vm_compute. reflexivity.
Defined.

(** ** Missing settings *)

(** A lookup in the optimizer settings: go on with the value, or stop at the
    [KeyError]. *)
Ltac look w k v :=
  let H := fresh "H" in
  destruct (optimizer_settings w !! k) as [v|] eqn:H;
  [ erewrite bind_ret by (apply setting_run; exact H)
  | eexists; apply bind_raise, setting_missing; exact H ].

(** A value that has to be a number: go on with it, or stop at the error. *)
Ltac number v n :=
  let H := fresh "H" in
  destruct (as_int v) as [n|] eqn:H;
  [ erewrite bind_ret by (apply lift_run; reflexivity)
  | eexists; apply bind_raise; reflexivity ].

Lemma SMAC_start_missing (C : collaborators) (self : SMACOptimizer) (w : world)
    (key : string) :
  key ∈ ["num_iterations"; "min_budget"; "max_budget"; "eta"; "time_limit_in_s";
         "cutoff_in_s"; "mem_limit_in_mb"; "output_dir"] →
  optimizer_settings w !! key = None →
  ∃ x, SMAC_start C self w = (Raise x, w).
Proof.
  intros Hkey Hmissing. unfold SMAC_start.
  look w "num_iterations" v1. look w "min_budget" v2.
  look w "max_budget" v3. look w "eta" v4.
  number v1 n1. number v2 n2. number v3 n3. number v4 n4.
  look w "time_limit_in_s" v5. look w "cutoff_in_s" v6.
  look w "mem_limit_in_mb" v7. look w "output_dir" v8.
  exfalso. set_unfold in Hkey. destruct_or!; subst key; congruence.
Qed.

(** X8.  Settings are checked before anything is started: a bandit run whose
    settings lack [output_dir] raises the [KeyError] with no collaborator
    called, and a model-based run whose settings lack any of the eight keys
    raises with no collaborator called, no scenario built and the world as
    it was. *)
Theorem run_missing_setting (C : collaborators) (w : world) :
  (∀ self : BOHBOptimizer,
     optimizer_settings w !! "output_dir" = None →
     BOHBOptimizer_run C self w = (Raise (KeyError "output_dir"), w))
  ∧ (∀ (self : SMACOptimizer) (key : string),
       key ∈ ["num_iterations"; "min_budget"; "max_budget"; "eta"; "time_limit_in_s";
              "cutoff_in_s"; "mem_limit_in_mb"; "output_dir"] →
       optimizer_settings w !! key = None →
       ∃ x, SMACOptimizer_run C self w = (Raise x, w)).
Proof.
  split.
  - intros self Hmissing. unfold BOHBOptimizer_run, BOHB_start.
    apply bind_raise, bind_raise, setting_missing. exact Hmissing.
  - intros self key Hkey Hmissing.
    destruct (SMAC_start_missing C self w key Hkey Hmissing) as [x Hx].
    exists x. unfold SMACOptimizer_run. apply bind_raise. exact Hx.
Qed.

Lemma run_missing_setting_witness :
  BOHBOptimizer_run Fakes.quiet Fakes.bohb (Fakes.world_without "output_dir")
  = (Raise (KeyError "output_dir"), Fakes.world_without "output_dir")
  ∧ ∃ x, SMACOptimizer_run Fakes.quiet Fakes.smac (Fakes.world_without "cutoff_in_s")
         = (Raise x, Fakes.world_without "cutoff_in_s").
Proof.
  split.
  - apply (proj1 (run_missing_setting Fakes.quiet (Fakes.world_without "output_dir"))).
    vm_compute. reflexivity.
  - apply (proj2 (run_missing_setting Fakes.quiet (Fakes.world_without "cutoff_in_s"))
             Fakes.smac "cutoff_in_s").
    + set_solver.
    + vm_compute. reflexivity.
Defined.

(** ** The model-based run that completes *)

(** X9.  Once the engine is set up, if [smac.optimize()] returns, then [run]
    reads the incumbent, logs one message with the seconds that [optimize]
    took and the incumbent the engine holds after it, and returns
    [Path(smac.output_dir)]; no deadline is put on the call, which takes as
    long as the engine needs. *)
Theorem SMACOptimizer_run_completed (C : collaborators) (self : SMACOptimizer)
    (w w1 w2 : world) :
  SMAC_start C self w = (Ret (), w1) →
  smac_optimize_call C w1 = (Ret (), w2) →
  SMACOptimizer_run C self w
  = (Ret (Path (smac_output_dir (engine w2))),
     log_call (EvLoggerInfo
                 (Finished_Optimization
                    (Z.of_nat (duration (smac_optimize C (engine w1))))
                    (smac_solver_incumbent (engine w2))))
       (log_call EvSolverIncumbent w2))
  ∧ clock w2 = (clock w1 + duration (smac_optimize C (engine w1)))%nat.
Proof.
  intros Hstart Hopt.
  assert (clock w2 = (clock w1 + duration (smac_optimize C (engine w1)))%nat) as Hclock.
  { unfold smac_optimize_call, run_proc in Hopt. cbv zeta in Hopt.
    pose proof (run_ticks_clock (ticks (smac_optimize C (engine (log_call EvSmacOptimize w1))))
                  (finish (smac_optimize C (engine (log_call EvSmacOptimize w1))))
                  (log_call EvSmacOptimize w1)) as H.
    rewrite Hopt in H. exact H. }
  split; [|exact Hclock].
  unfold SMACOptimizer_run. step Hstart.
  rewrite bind_run. unfold time at 1. cbv beta iota.
  rewrite bind_run. unfold try_finally, read_incumbent. rewrite Hopt.
  cbv beta iota.
  rewrite bind_run. unfold time at 1. cbv beta iota.
  rewrite bind_run. unfold logger_info at 1. cbv beta iota.
  rewrite bind_run. unfold attr at 1. cbv beta iota.
  cbn [clock log_call engine]. rewrite Hclock.
  replace (Z.of_nat (clock w1 + duration (smac_optimize C (engine w1))) - Z.of_nat (clock w1))
    with (Z.of_nat (duration (smac_optimize C (engine w1)))) by lia.
  reflexivity.
Qed.

Lemma SMACOptimizer_run_completed_witness :
  let w := Fakes.a_world 3 2 in
  fst (SMACOptimizer_run Fakes.quiet Fakes.smac w) = Ret (VPath "out/run_1")
  ∧ last (calls (snd (SMACOptimizer_run Fakes.quiet Fakes.smac w)))
    = Some (EvLoggerInfo (Finished_Optimization 2 (Some {[ "x" := VInt 2 ]}))).
Proof.
  intros w.
  set (w1 := snd (SMAC_start Fakes.quiet Fakes.smac w)).
  set (w2 := snd (smac_optimize_call Fakes.quiet w1)).
  rewrite (proj1 (SMACOptimizer_run_completed Fakes.quiet Fakes.smac w w1 w2
                    ltac:(vm_compute; reflexivity) ltac:(vm_compute; reflexivity))).
  vm_compute. split; reflexivity.
Defined.

(** ** What the engines are told *)

(** X6.  The set-up of the bandit run, when it goes through, has made six
    calls, in this order: result logger, name server, [ns.start()], worker,
    [worker.run(background=True)], [BOHB].  Result logger and name server get
    the same directory, [str(output_dir)]; name server, worker and engine get
    the same run id; worker and engine get the host and the port that
    [ns.start()] returned; the worker gets the benchmark settings and the
    engine the [eta], [min_budget] and [max_budget] of the settings. *)
Theorem BOHB_start_calls (C : collaborators) (self : BOHBOptimizer) (w w1 : world) :
  BOHB_start C self w = (Ret (), w1) →
  ∃ output_dir eta min_budget max_budget host port e e',
    optimizer_settings w !! "output_dir" = Some output_dir
    ∧ optimizer_settings w !! "eta" = Some eta
    ∧ optimizer_settings w !! "min_budget" = Some min_budget
    ∧ optimizer_settings w !! "max_budget" = Some max_budget
    ∧ ns_start C e = (Ret (host, port), e')
    ∧ calls w1
      = calls w
        ++ [EvJsonResultLogger (py_str output_dir) true;
            EvNameServer (run_id self) "localhost" (py_str output_dir);
            EvNsStart;
            EvCustomWorker (benchmark_settings w) host port (run_id self);
            EvWorkerRun true;
            EvBOHB (mk_BOHB_kwargs (cs (bohb_base self)) (run_id self) host host port
                      eta min_budget max_budget)].
Proof.
  intros H. unfold BOHB_start in H.
  apply bind_inv in H as (output_dir & w0 & Hout & H).
  apply optimizer_setting_inv in Hout as [Hout ->].
  apply bind_inv in H as ([] & w2 & Hlogger & H).
  apply call_inv in Hlogger as (e1 & _ & ->).
  apply bind_inv in H as (output_dir' & w0 & Hout' & H).
  apply optimizer_setting_inv in Hout' as [Hout' ->]. cbn in Hout'.
  rewrite Hout in Hout'. injection Hout' as <-.
  apply bind_inv in H as ([] & w3 & Hns & H).
  apply call_inv in Hns as (e2 & _ & ->).
  apply bind_inv in H as ([host port] & w4 & Hstart & H).
  apply call_inv in Hstart as (e3 & Hstart & ->).
  apply bind_inv in H as (settings & w0 & Hsettings & H).
  injection Hsettings as <- <-.
  apply bind_inv in H as ([] & w5 & Hworker & H).
  apply call_inv in Hworker as (e4 & _ & ->).
  apply bind_inv in H as ([] & w6 & Hrun & H).
  apply call_inv in Hrun as (e5 & _ & ->).
  apply bind_inv in H as (eta & w0 & Heta & H).
  apply optimizer_setting_inv in Heta as [Heta ->].
  apply bind_inv in H as (min_budget & w0 & Hmin & H).
  apply optimizer_setting_inv in Hmin as [Hmin ->].
  apply bind_inv in H as (max_budget & w0 & Hmax & H).
  apply optimizer_setting_inv in Hmax as [Hmax ->].
  apply call_inv in H as (e6 & _ & ->).
  cbn in Heta, Hmin, Hmax, Hstart.
  exists output_dir, eta, min_budget, max_budget, host, port, e2, e3.
  repeat (split; [assumption|]).
  cbn. rewrite <- !app_assoc. reflexivity.
Qed.

Lemma BOHB_start_calls_witness :
  let w := Fakes.a_world 3 2 in
  ∃ output_dir eta min_budget max_budget host port e e',
    optimizer_settings w !! "output_dir" = Some output_dir
    ∧ optimizer_settings w !! "eta" = Some eta
    ∧ optimizer_settings w !! "min_budget" = Some min_budget
    ∧ optimizer_settings w !! "max_budget" = Some max_budget
    ∧ ns_start Fakes.quiet e = (Ret (host, port), e')
    ∧ calls (snd (BOHB_start Fakes.quiet Fakes.bohb w))
      = calls w
        ++ [EvJsonResultLogger (py_str output_dir) true;
            EvNameServer (run_id Fakes.bohb) "localhost" (py_str output_dir);
            EvNsStart;
            EvCustomWorker (benchmark_settings w) host port (run_id Fakes.bohb);
            EvWorkerRun true;
            EvBOHB (mk_BOHB_kwargs (cs (bohb_base Fakes.bohb)) (run_id Fakes.bohb)
                      host host port eta min_budget max_budget)].
Proof.
  intros w.
  apply (BOHB_start_calls Fakes.quiet Fakes.bohb w
           (snd (BOHB_start Fakes.quiet Fakes.bohb w))).
  vm_compute. reflexivity.
Defined.

(** X10.  The set-up of the model-based run, when it goes through, has made
    three calls, in this order: [Scenario], [RandomState(self.rng)],
    [SMAC4HPO].  The scenario carries the wall-clock limit, the cutoff, the
    memory limit and [str(output_dir)] of the settings and, as run-count
    limit, [get_number_ta_runs] of the four budget settings; the intensifier
    is given those same [min_budget], [max_budget] and [eta], and the engine
    the seed and the intensifier class of [self]. *)
Theorem SMAC_start_configuration (C : collaborators) (self : SMACOptimizer)
    (w w1 : world) :
  SMAC_start C self w = (Ret (), w1) →
  ∃ (num_iterations min_budget max_budget eta wallclock cutoff memory output_dir : value)
    (n lo hi factor : Z),
    optimizer_settings w !! "num_iterations" = Some num_iterations
    ∧ optimizer_settings w !! "min_budget" = Some min_budget
    ∧ optimizer_settings w !! "max_budget" = Some max_budget
    ∧ optimizer_settings w !! "eta" = Some eta
    ∧ optimizer_settings w !! "time_limit_in_s" = Some wallclock
    ∧ optimizer_settings w !! "cutoff_in_s" = Some cutoff
    ∧ optimizer_settings w !! "mem_limit_in_mb" = Some memory
    ∧ optimizer_settings w !! "output_dir" = Some output_dir
    ∧ as_int num_iterations = Ret n ∧ as_int min_budget = Ret lo
    ∧ as_int max_budget = Ret hi ∧ as_int eta = Ret factor
    ∧ let scenario :=
        mk_scenario_dict "quality" wallclock (cs (smac_base self)) "true" true
          (get_number_ta_runs n lo hi factor) cutoff memory (py_str output_dir) in
      calls w1
      = calls w
        ++ [EvScenario scenario;
            EvRandomState (rng (smac_base self));
            EvSMAC4HPO (mk_SMAC4HPO_kwargs scenario (rng (smac_base self))
                          (smac_intensifier self) min_budget max_budget eta)].
Proof.
  intros H. unfold SMAC_start in H.
  apply bind_inv in H as (num_iterations & w0 & H1 & H).
  apply optimizer_setting_inv in H1 as [H1 ->].
  apply bind_inv in H as (min_budget & w0 & H2 & H).
  apply optimizer_setting_inv in H2 as [H2 ->].
  apply bind_inv in H as (max_budget & w0 & H3 & H).
  apply optimizer_setting_inv in H3 as [H3 ->].
  apply bind_inv in H as (eta & w0 & H4 & H).
  apply optimizer_setting_inv in H4 as [H4 ->].
  apply bind_inv in H as (n & w0 & N1 & H). apply lift_inv in N1 as [N1 ->].
  apply bind_inv in H as (lo & w0 & N2 & H). apply lift_inv in N2 as [N2 ->].
  apply bind_inv in H as (hi & w0 & N3 & H). apply lift_inv in N3 as [N3 ->].
  apply bind_inv in H as (factor & w0 & N4 & H). apply lift_inv in N4 as [N4 ->].
  apply bind_inv in H as (wallclock & w0 & H5 & H).
  apply optimizer_setting_inv in H5 as [H5 ->].
  apply bind_inv in H as (cutoff & w0 & H6 & H).
  apply optimizer_setting_inv in H6 as [H6 ->].
  apply bind_inv in H as (memory & w0 & H7 & H).
  apply optimizer_setting_inv in H7 as [H7 ->].
  apply bind_inv in H as (output_dir & w0 & H8 & H).
  apply optimizer_setting_inv in H8 as [H8 ->].
  cbv zeta in H.
  apply bind_inv in H as ([] & w2 & Hscenario & H).
  apply call_inv in Hscenario as (e1 & _ & ->).
  apply bind_inv in H as ([] & w3 & Hrandom & H).
  apply call_inv in Hrandom as (e2 & _ & ->).
  apply bind_inv in H as (initial_budget & w0 & H2' & H).
  apply optimizer_setting_inv in H2' as [H2' ->].
  apply bind_inv in H as (max_budget' & w0 & H3' & H).
  apply optimizer_setting_inv in H3' as [H3' ->].
  apply bind_inv in H as (eta' & w0 & H4' & H).
  apply optimizer_setting_inv in H4' as [H4' ->].
  apply call_inv in H as (e3 & _ & ->).
  cbn in H2', H3', H4'.
  rewrite H2 in H2'. injection H2' as <-.
  rewrite H3 in H3'. injection H3' as <-.
  rewrite H4 in H4'. injection H4' as <-.
  exists num_iterations, min_budget, max_budget, eta, wallclock, cutoff, memory,
    output_dir, n, lo, hi, factor.
  repeat (split; [assumption|]).
  cbn. rewrite <- !app_assoc. reflexivity.
Qed.

Lemma SMAC_start_configuration_witness :
  let w := Fakes.a_world 3 2 in
  ∃ scenario rng' kw,
    calls (snd (SMAC_start Fakes.quiet Fakes.smac w))
    = calls w ++ [EvScenario scenario; EvRandomState rng'; EvSMAC4HPO kw]
    ∧ sc_runcount_limit scenario = get_number_ta_runs 2 1 27 3
    ∧ sk_initial_budget kw = VInt 1.
Proof.
  intros w.
  destruct (SMAC_start_configuration Fakes.quiet Fakes.smac w
              (snd (SMAC_start Fakes.quiet Fakes.smac w)) ltac:(vm_compute; reflexivity))
    as (v1 & v2 & v3 & v4 & v5 & v6 & v7 & v8 & n & lo & hi & factor
        & H1 & H2 & H3 & H4 & _ & _ & _ & _ & N1 & N2 & N3 & N4 & Hcalls).
  vm_compute in H1, H2, H3, H4.
  injection H1 as <-. injection H2 as <-. injection H3 as <-. injection H4 as <-.
  injection N1 as <-. injection N2 as <-. injection N3 as <-. injection N4 as <-.
  eexists _, _, _. split; [exact Hcalls|]. split; reflexivity.
Defined.

(** ** Construction *)

(** X11.  A [SMACOptimizer] that has been constructed was asked for one of
    the two supported intensifiers and holds the matching class; it holds the
    seed it was given and the configuration space that the one call to the
    adapter returned. *)
Theorem SMACOptimizer_init_supported (C : collaborators) (i : OptimizerEnum)
    (seed : value) (w w' : world) (self : SMACOptimizer) :
  SMACOptimizer_init C i seed w = (Ret self, w') →
  (i = HYPERBAND ∧ smac_intensifier self = Hyperband
   ∨ i = SUCCESSIVE_HALVING ∧ smac_intensifier self = SuccessiveHalving)
  ∧ rng (smac_base self) = seed
  ∧ fst (get_configuration_space C (engine w)) = Ret (cs (smac_base self))
  ∧ calls w' = calls w ++ [EvGetConfigurationSpace].
Proof.
  intros H. unfold SMACOptimizer_init in H.
  apply bind_inv in H as (base & w1 & Hbase & H).
  unfold Optimizer_init in Hbase.
  apply bind_inv in Hbase as (space & w0 & Hcall & Hbase).
  apply call_inv in Hcall as (e & Hcall & ->).
  injection Hbase as <- <-.
  destruct i; [injection H as <- <- | injection H as <- <- | discriminate H];
    (split; [auto|]); cbn; rewrite Hcall; auto.
Qed.

Lemma SMACOptimizer_init_supported_witness :
  let r := SMACOptimizer_init Fakes.quiet SUCCESSIVE_HALVING (VInt 7) (Fakes.a_world 3 2) in
  ∃ self, fst r = Ret self
          ∧ smac_intensifier self = SuccessiveHalving
          ∧ rng (smac_base self) = VInt 7
          ∧ calls (snd r) = [EvGetConfigurationSpace].
Proof.
  intros r.
  set (self := mk_SMACOptimizer
                 (mk_Optimizer (ConfigurationSpace_obj 0) (VInt 7) SUCCESSIVE_HALVING)
                 SuccessiveHalving).
  destruct (SMACOptimizer_init_supported Fakes.quiet SUCCESSIVE_HALVING (VInt 7)
              (Fakes.a_world 3 2) (snd r) self ltac:(vm_compute; reflexivity))
    as (Hclass & Hseed & _ & Hcalls).
  exists self. split; [vm_compute; reflexivity|].
  split; [reflexivity|]. split; [exact Hseed | exact Hcalls].
Defined.

(** X15.  Bandit coordinators constructed with different integer seeds have
    different run ids. *)
Theorem BOHBOptimizer_init_run_id (C : collaborators) (i j : OptimizerEnum) (a b : Z)
    (w w' wa wb : world) (self_a self_b : BOHBOptimizer) :
  BOHBOptimizer_init C i (VInt a) w = (Ret self_a, wa) →
  BOHBOptimizer_init C j (VInt b) w' = (Ret self_b, wb) →
  run_id self_a = run_id self_b →
  a = b.
Proof.
  intros Ha Hb Hid. unfold BOHBOptimizer_init in Ha, Hb.
  apply bind_inv in Ha as (base_a & w1 & _ & Ha). injection Ha as <- _.
  apply bind_inv in Hb as (base_b & w2 & _ & Hb). injection Hb as <- _.
  cbn [run_id py_str] in Hid.
  apply (inj (String.app "BOHB_optimization_seed_")) in Hid.
  apply (inj pretty) in Hid. exact Hid.
Qed.

Lemma BOHBOptimizer_init_run_id_witness :
  let self := mk_BOHBOptimizer
                (mk_Optimizer (ConfigurationSpace_obj 0) (VInt 4) (OTHER "BOHB"))
                "BOHB_optimization_seed_4" in
  fst (BOHBOptimizer_init Fakes.quiet (OTHER "BOHB") (VInt 4) (Fakes.a_world 3 2)) = Ret self
  ∧ 4 = 4.
Proof.
  intros self. split; [vm_compute; reflexivity|].
  apply (BOHBOptimizer_init_run_id Fakes.quiet (OTHER "BOHB") (OTHER "BOHB") 4 4
           (Fakes.a_world 3 2) (Fakes.a_world 3 2)
           (snd (BOHBOptimizer_init Fakes.quiet (OTHER "BOHB") (VInt 4) (Fakes.a_world 3 2)))
           (snd (BOHBOptimizer_init Fakes.quiet (OTHER "BOHB") (VInt 4) (Fakes.a_world 3 2)))
           self self).
  - vm_compute. reflexivity.
  - vm_compute. reflexivity.
  - reflexivity.
Defined.

(** ** The objective wrapper and the adapter *)

(** X12.  When the keyword arguments can be built (the settings carry a
    fidelity type the parser knows and that accepts the budget, and a string
    fidelity name that is not itself a key of the settings), the wrapper calls
    the adapter exactly once whatever the adapter does: an exception of the
    adapter is raised unchanged, a result without [function_value] is a
    [KeyError], and in every case the effect of the call on the engine
    stays. *)
Theorem optimization_function_wrapper_outcome (C : collaborators) (cfg : Configuration)
    (seed instance budget : value) (w : world)
    (declared coerced : value) (fidelity_type : value → outcome value) (name : string) :
  benchmark_settings w !! "fidelity_type" = Some declared →
  parse_fidelity_type C declared = Ret fidelity_type →
  benchmark_settings w !! "fidelity_name" = Some (VStr name) →
  fidelity_type budget = Ret coerced →
  benchmark_settings w !! name = None →
  let kwargs := <[name := coerced]> (benchmark_settings w) in
  optimization_function_wrapper C cfg seed instance budget w
  = (match fst (objective_function C cfg kwargs (engine w)) with
     | Ret result_dict => getitem result_dict "function_value"
     | Raise x => Raise x
     end,
     mk_world (optimizer_settings w) (benchmark_settings w)
       (snd (objective_function C cfg kwargs (engine w)))
       (calls w ++ [EvObjectiveFunction cfg kwargs]) (clock w)).
Proof.
  intros Hdeclared Hparse Hname Hcoerce Hfree kwargs.
  unfold optimization_function_wrapper.
  step Hdeclared. step Hparse. step Hname. step Hcoerce.
  rewrite bind_run. cbv beta. unfold keyword_arguments. rewrite Hfree. cbv beta iota.
  fold kwargs. rewrite bind_run, call_run. cbn [engine].
  destruct (objective_function C cfg kwargs (engine w)) as [[result_dict|x] e];
    reflexivity.
Qed.

Lemma optimization_function_wrapper_outcome_witness :
  let C := Fakes.with_objective_function Fakes.no_value Fakes.quiet in
  let w := Fakes.a_world 3 2 in
  let cfg : Configuration := {[ "x" := VInt 1 ]} in
  let r := optimization_function_wrapper C cfg (VInt 0) VNone (VInt 9) w in
  fst r = Raise (KeyError "function_value")
  ∧ calls (snd r) = [EvObjectiveFunction cfg (<["epoch" := VInt 9]> (benchmark_settings w))].
Proof.
  intros C w cfg r. subst r.
  rewrite (optimization_function_wrapper_outcome C cfg (VInt 0) VNone (VInt 9) w
             (VStr "int") (VInt 9)
             (λ v, match as_int v with Ret n => Ret (VInt n) | Raise x => Raise x end)
             "epoch" ltac:(reflexivity) ltac:(reflexivity) ltac:(reflexivity)
             ltac:(reflexivity) ltac:(reflexivity)).
  split; reflexivity.
Defined.

(** X13.  A fidelity name that is already a key of the benchmark settings
    cannot be passed next to them: the wrapper raises the [TypeError] of the
    doubled keyword and the adapter is not called. *)
Theorem optimization_function_wrapper_doubled_keyword (C : collaborators)
    (cfg : Configuration) (seed instance budget : value) (w : world)
    (declared coerced present : value) (fidelity_type : value → outcome value)
    (name : string) :
  benchmark_settings w !! "fidelity_type" = Some declared →
  parse_fidelity_type C declared = Ret fidelity_type →
  benchmark_settings w !! "fidelity_name" = Some (VStr name) →
  fidelity_type budget = Ret coerced →
  benchmark_settings w !! name = Some present →
  optimization_function_wrapper C cfg seed instance budget w
  = (Raise (TypeError "got multiple values for keyword argument"), w).
Proof.
  intros Hdeclared Hparse Hname Hcoerce Hpresent.
  unfold optimization_function_wrapper.
  step Hdeclared. step Hparse. step Hname. step Hcoerce.
  rewrite bind_run. cbv beta. unfold keyword_arguments. rewrite Hpresent. reflexivity.
Qed.

Lemma optimization_function_wrapper_doubled_keyword_witness :
  optimization_function_wrapper Fakes.quiet {[ "x" := VInt 1 ]} (VInt 0) VNone (VInt 9)
    Fakes.clashing_world
  = (Raise (TypeError "got multiple values for keyword argument"), Fakes.clashing_world).
Proof.
  apply (optimization_function_wrapper_doubled_keyword Fakes.quiet {[ "x" := VInt 1 ]}
           (VInt 0) VNone (VInt 9) Fakes.clashing_world (VStr "int") (VInt 9) (VInt 1)
           (λ v, match as_int v with Ret n => Ret (VInt n) | Raise x => Raise x end)
           "epoch"); reflexivity.
Defined.

(** ** Reporting the incumbent *)

Lemma BOHB_report_no_incumbent (C : collaborators) (result : Result) (w : world) :
  get_incumbent_id C result = Ret None →
  ∃ x, BOHB_report C (Some result) w = (Raise x, w).
Proof.
  intros Hnone. unfold BOHB_report, lift.
  rewrite bind_run. destruct (get_id2config_mapping C result) as [id2config|x]; [|eauto].
  rewrite bind_run, Hnone.
  rewrite bind_run. destruct (get_runs_by_id C result None) as [runs|x]; [|eauto].
  rewrite bind_run. destruct (index_last runs) as [last_run|x]; [|eauto].
  rewrite bind_run. destruct (getitem last_run "loss") as [inc_value|x]; [|eauto].
  rewrite bind_run. cbn. eauto.
Qed.

(** X14.  A result without incumbent cannot be reported: when the [try]
    statement has yielded a result for which [get_incumbent_id()] is [None],
    then [run] raises, whatever else the collaborators do; it does not return
    the output directory. *)
Theorem BOHBOptimizer_run_no_incumbent (C : collaborators) (self : BOHBOptimizer)
    (w w1 w2 : world) (result : Result) :
  BOHB_start C self w = (Ret (), w1) →
  BOHB_optimize C w1 = (Ret (Some result), w2) →
  get_incumbent_id C result = Ret None →
  ∃ x w', BOHBOptimizer_run C self w = (Raise x, w').
Proof.
  intros Hstart Hopt Hnone. unfold BOHBOptimizer_run.
  step Hstart. step Hopt.
  rewrite bind_run. destruct (BOHB_teardown C w2) as [[[]|x] w3]; [|eauto].
  destruct (BOHB_report_no_incumbent C result w3 Hnone) as [x Hx].
  exists x, w3. apply bind_raise. exact Hx.
Qed.

Lemma BOHBOptimizer_run_no_incumbent_witness :
  ∃ x w', BOHBOptimizer_run Fakes.quiet Fakes.bohb (Fakes.cold_world 0 5) = (Raise x, w').
Proof.
  set (w := Fakes.cold_world 0 5).
  set (w1 := snd (BOHB_start Fakes.quiet Fakes.bohb w)).
  apply (BOHBOptimizer_run_no_incumbent Fakes.quiet Fakes.bohb w w1
           (snd (BOHB_optimize Fakes.quiet w1)) (mk_Result [] ∅)).
  - vm_compute. reflexivity.
  - vm_compute. reflexivity.
  - reflexivity.
Defined.

(** ** Every exit path of the bandit run *)

Lemma BOHB_teardown_log (C : collaborators) (w : world) :
  calls (snd (BOHB_teardown C w)) = calls w ++ [EvMasterShutdown true]
  ∨ calls (snd (BOHB_teardown C w)) = calls w ++ [EvMasterShutdown true] ++ [EvNsShutdown].
Proof.
  unfold BOHB_teardown. rewrite bind_run, call_run.
  destruct (master_shutdown C true (engine w)) as [[[]|x] e]; cbn [fst snd].
  - right. rewrite call_run. cbn. rewrite <- app_assoc. reflexivity.
  - left. reflexivity.
Qed.

(** X17.  On every exit path, whatever the collaborators do, [run] calls
    [master.shutdown] at most once and [ns.shutdown] at most once, and it
    never calls [ns.shutdown] without having called [master.shutdown]. *)
Theorem BOHBOptimizer_run_shutdown_counts (C : collaborators) (self : BOHBOptimizer)
    (w : world) :
  let before := calls w in
  let after := calls (snd (BOHBOptimizer_run C self w)) in
  (count_calls is_master_shutdown after = count_calls is_master_shutdown before
   ∧ count_calls is_ns_shutdown after = count_calls is_ns_shutdown before)
  ∨ (count_calls is_master_shutdown after = S (count_calls is_master_shutdown before)
     ∧ count_calls is_ns_shutdown after = count_calls is_ns_shutdown before)
  ∨ (count_calls is_master_shutdown after = S (count_calls is_master_shutdown before)
     ∧ count_calls is_ns_shutdown after = S (count_calls is_ns_shutdown before)).
Proof.
  intros before after. subst before after. unfold BOHBOptimizer_run.
  pose proof (adds_no_BOHB_start is_master_shutdown ltac:(auto) C self w) as Sm.
  pose proof (adds_no_BOHB_start is_ns_shutdown ltac:(auto) C self w) as Sn.
  rewrite bind_run. destruct (BOHB_start C self w) as [[[]|x] w1]; cbn [snd] in *;
    [|left; split; assumption].
  pose proof (adds_no_BOHB_optimize is_master_shutdown ltac:(auto) C w1) as Om.
  pose proof (adds_no_BOHB_optimize is_ns_shutdown ltac:(auto) C w1) as On.
  rewrite bind_run. destruct (BOHB_optimize C w1) as [[result|x] w2]; cbn [snd] in *;
    [|left; split; congruence].
  pose proof (BOHB_teardown_log C w2) as Hdown.
  assert (∀ w3, calls w3 = calls w2 ++ [EvMasterShutdown true]
                ∨ calls w3 = calls w2 ++ [EvMasterShutdown true] ++ [EvNsShutdown] →
          (count_calls is_master_shutdown (calls w3)
           = S (count_calls is_master_shutdown (calls w))
           ∧ count_calls is_ns_shutdown (calls w3) = count_calls is_ns_shutdown (calls w))
          ∨ (count_calls is_master_shutdown (calls w3)
             = S (count_calls is_master_shutdown (calls w))
             ∧ count_calls is_ns_shutdown (calls w3)
               = S (count_calls is_ns_shutdown (calls w)))) as Hcount.
  { intros w3 [H|H]; rewrite H; [left|right];
      rewrite ?app_assoc, !count_calls_snoc; cbn; split; lia. }
  rewrite bind_run. destruct (BOHB_teardown C w2) as [[[]|x] w3]; cbn [snd] in *;
    [|right; apply Hcount, Hdown].
  pose proof (adds_no_BOHB_report is_master_shutdown ltac:(auto) C result w3) as Rm.
  pose proof (adds_no_BOHB_report is_ns_shutdown ltac:(auto) C result w3) as Rn.
  rewrite bind_run. destruct (BOHB_report C result w3) as [[[]|x] w4]; cbn [snd] in *.
  - unfold optimizer_setting. cbn [snd]. right. rewrite Rm, Rn. apply Hcount, Hdown.
  - right. rewrite Rm, Rn. apply Hcount, Hdown.
Qed.
